(** * Barangay Case Analyzer: the report pipeline of [script.js]

    A shallow embedding of the functions that turn the intake form into the
    report record handed to [renderReport]: [validateForm], [classifyCase],
    the [LEGAL_DATA] table, [generateMediationStrategy], [generateQuestions],
    [gatherData] and [generateReport].

    Modelling conventions.
    - A JavaScript string is a [string]: one [ascii] per character.  The text
      typed by the user is taken to be ASCII: [toLowerCase] maps [A]-[Z] to
      [a]-[z] and leaves every other character alone, [trim] removes the six
      ASCII white space characters, and [length] counts characters.  Outside
      ASCII the engine also lower-cases other letters (two of them, U+0130
      and U+212A, to the ASCII letters [i] and [k]) and trims other spaces;
      such text is not covered.  The literal texts of the tables keep the few
      non-ASCII characters of the source as their UTF-8 bytes; they are only
      ever copied and compared.
    - The classification is the string the source returns (['theft'], ...);
      [CaseCategory] is the closed set of the five values and [categoryKey]
      gives the string of each.
    - [LEGAL_DATA] is a finite map from keys to records, and reading it at a
      key gives an [option]: [None] is JavaScript's [undefined].  The map
      holds the own properties of the object literal and has no prototype
      chain: at the names [Object.prototype] defines ([constructor],
      [toString], ...) the code finds a function or an object, and the map
      is not to be read there.
    - The engine functions behind [new Date(text)] and [toLocaleString] are
      the fields of a [Runtime]; the clock read by [new Date()] is an explicit
      argument [now]. *)

(** The second half of the definitions covers the rest of the script: the
    respondent blocks of the page ([refreshRespondentIndices],
    [addRespondent], [removeRespondent] and the listeners of the container
    and of the clear button), [renderReport] as the tree it builds, and the
    legal search of [research.js] with the configuration of [config.js]
    ([legalSearch], [startLegalSearch], [runLegalSearchUI],
    [attachCitation]).  Left out: [downloadReportAsPDF], whose paging loop
    runs on the floating-point page sizes of the PDF library, and
    [printReport], which only calls the browser. *)

From Stdlib Require Import ZArith Bool List Ascii String Lia.
From stdpp Require Import base option gmap strings pretty.

Local Open Scope Z_scope.
Local Open Scope list_scope.

(** ** Strings *)

Definition isUpper (c : ascii) : bool :=
  let n := nat_of_ascii c in ((65 <=? n) && (n <=? 90))%nat.

Definition toLowerChar (c : ascii) : ascii :=
  if isUpper c then ascii_of_nat (nat_of_ascii c + 32) else c.

(** [String.prototype.toLowerCase]. *)
Fixpoint toLowerCase (s : string) : string :=
  match s with
  | EmptyString => EmptyString
  | String c t => String (toLowerChar c) (toLowerCase t)
  end.

(** White space removed by [String.prototype.trim]: tab, line feed, vertical
    tab, form feed, carriage return and space. *)
Definition isWhiteSpace (c : ascii) : bool :=
  let n := nat_of_ascii c in (((9 <=? n) && (n <=? 13)) || (n =? 32))%nat.

Fixpoint trimStart (s : string) : string :=
  match s with
  | EmptyString => EmptyString
  | String c t => if isWhiteSpace c then trimStart t else s
  end.

Fixpoint trimEnd (s : string) : string :=
  match s with
  | EmptyString => EmptyString
  | String c t =>
      match trimEnd t with
      | EmptyString => if isWhiteSpace c then EmptyString else String c EmptyString
      | t' => String c t'
      end
  end.

(** [String.prototype.trim]. *)
Definition trim (s : string) : string := trimEnd (trimStart s).

(** A string is truthy when it is not empty. *)
Definition truthy (s : string) : bool :=
  match s with EmptyString => false | String _ _ => true end.

(** ** Regular expressions of the classifier

    Every pattern of [classifyCase] is a disjunction of literal words, with no
    flag and no anchor.  It is kept as the list of its alternatives, in the
    order of the source. *)

Definition RegExp := list string.

(** The literal [lit] read at the head of [text]. *)
Fixpoint startsWith (lit text : string) : bool :=
  match lit, text with
  | EmptyString, _ => true
  | String _ _, EmptyString => false
  | String a lit', String b text' => Ascii.eqb a b && startsWith lit' text'
  end.

(** One attempt of the matcher at the head of [text]: the alternatives are
    tried from left to right. *)
Definition matchHere (re : RegExp) (text : string) : bool :=
  existsb (fun lit => startsWith lit text) re.

(** [RegExp.prototype.test]: the attempt is made at every index of the text,
    from the first to the one past the last. *)
Fixpoint RegExp_test (re : RegExp) (text : string) : bool :=
  matchHere re text ||
  match text with
  | EmptyString => false
  | String _ rest => RegExp_test re rest
  end.

(** ** Classifier *)

Definition theftPattern : RegExp :=
  ["steal"; "theft"; "stole"; "rob"; "robbed"; "take"; "took"; "taken";
   "takin"; "missing"].
Definition threatPattern : RegExp := ["threat"; "kill"; "hurt"; "intimidat"].
Definition defamationPattern : RegExp :=
  ["defam"; "slander"; "insult"; "libel"; "oral"].
Definition injuryPattern : RegExp :=
  ["injur"; "hit"; "punch"; "physical"; "attack"].

Definition classifyCase (summary : string) : string :=
  let text := toLowerCase summary in
  if RegExp_test theftPattern text then "theft"
  else if RegExp_test threatPattern text then "threat"
  else if RegExp_test defamationPattern text then "defamation"
  else if RegExp_test injuryPattern text then "injury"
  else "general".

(** The five categories of the specification and the string that stands for
    each in the source. *)
Inductive CaseCategory := Theft | Threat | Defamation | Injury | General.

Definition categoryKey (c : CaseCategory) : string :=
  match c with
  | Theft => "theft"
  | Threat => "threat"
  | Defamation => "defamation"
  | Injury => "injury"
  | General => "general"
  end.

Definition allCategories : list CaseCategory :=
  [Theft; Threat; Defamation; Injury; General].

(** *** The classifier as the specification words it

    A keyword occurs in a text when the text splits around it; a rule matches
    when one of its keywords occurs; the answer is the category of the first
    rule of the ordered list that matches, and [General] when none does. *)

Definition Occurs (kw text : string) : Prop :=
  exists pre post, text = pre +:+ kw +:+ post.

Definition OccursAny (kws : list string) (text : string) : Prop :=
  exists kw, In kw kws /\ Occurs kw text.

Definition spec_rules : list (list string * CaseCategory) :=
  [ (["steal"; "theft"; "stole"; "rob"; "robbed"; "take"; "took"; "taken";
      "takin"; "missing"], Theft);
    (["threat"; "kill"; "hurt"; "intimidat"], Threat);
    (["defam"; "slander"; "insult"; "libel"; "oral"], Defamation);
    (["injur"; "hit"; "punch"; "physical"; "attack"], Injury) ].

Inductive FirstMatch : list (list string * CaseCategory) -> string -> CaseCategory -> Prop :=
| FirstMatch_none text : FirstMatch [] text General
| FirstMatch_here kws c rules text :
    OccursAny kws text -> FirstMatch ((kws, c) :: rules) text c
| FirstMatch_next kws c rules text c' :
    ~ OccursAny kws text -> FirstMatch rules text c' ->
    FirstMatch ((kws, c) :: rules) text c'.

Definition allWhiteSpace (s : string) : Prop :=
  forall c, In c (list_ascii_of_string s) -> isWhiteSpace c = true.

(** A literal that starts with a character other than white space. *)
Definition startsBlack (lit : string) : bool :=
  match lit with
  | EmptyString => false
  | String a _ => negb (isWhiteSpace a)
  end.

(** ** Legal knowledge base *)

Record Provision := {
  title : string;
  basis : string;
  text : string;
  penalty : string
}.

Record CaseCitation := {
  cite_title : string;
  cite_summary : string
}.

Record LegalRecord := {
  nature : string;
  description : string;
  violations : list Provision;
  jurisprudence : list CaseCitation;
  counters : list Provision
}.

Definition LEGAL_DATA_theft : LegalRecord :=
  {| nature := "Theft / Qualified Theft";
     description :=
       "Theft involves taking personal property belonging to another without their consent and with intent to gain. Qualified theft occurs when the offender and owner have a relationship of trust (e.g., employee and employer).";
     violations :=
       [
         {| title := "Theft";
            basis := "Revised Penal Code Art. 308";
            text :=
              "Article 308 defines theft as taking personal property belonging to another without violence or intimidation, including the misappropriation of found property and the concealment of lost goods. The offender must intend to gain from the property【302115606301760†L4077-L4134】.";
            penalty :=
              "Article 309 provides penalties depending on the value of the property: if the value does not exceed ₱5,000, arresto mayor or fine applies; between ₱5,000 and ₱12,000, arresto mayor to prision correccional; ₱12,000 to ₱50,000, prision correccional; above ₱50,000, prision mayor【302115606301760†L4077-L4134】." |};
         {| title := "City ordinance on employment of seniors and PWDs";
            basis := "San Pedro City Ordinance No. 2024‑13";
            text :=
              "This ordinance mandates private businesses to reserve at least one job out of ten for senior citizens and persons with disabilities (PWDs) and requires city offices to allocate at least 1% of positions to them【50922767766975†L25-L57】.";
            penalty :=
              "Non‑compliance or misrepresentation results in a fine of ₱5,000 or imprisonment up to one year【50922767766975†L25-L57】." |}
       ];
     jurisprudence :=
       [
         {| cite_title := "Sonia Balagtas v. People (G.R. No. 257483, 30 Oct 2024)";
            cite_summary :=
              "The Supreme Court held that, to convict for qualified theft, the prosecution must prove a relationship of confidence between the accused and the offended party. In this case, a payroll manager who padded salaries and pocketed the difference was convicted of qualified theft【267612455535893†L72-L76】【267612455535893†L87-L96】." |}
       ];
     counters :=
       [
         {| title := "Malicious mischief";
            basis := "Revised Penal Code Art. 327";
            text :=
              "If property was merely damaged without intent to gain, the proper charge may be malicious mischief rather than theft.";
            penalty :=
              "Penalties vary depending on the amount of damage (fine or imprisonment)." |};
         {| title := "False accusation / Oral defamation";
            basis := "Revised Penal Code Art. 358";
            text :=
              "A respondent may file a counter‑charge for oral defamation if the complainant made false or malicious allegations.";
            penalty :=
              "Serious oral defamation is punishable by arresto mayor to prision correccional; slight defamation carries arresto menor or a fine【302115606301760†L4784-L4793】." |}
       ] |}.

Definition LEGAL_DATA_threat : LegalRecord :=
  {| nature := "Grave Threats / Threatening Behaviour";
     description :=
       "Threats involve threatening another with the infliction of any wrong amounting to a crime. Grave threats are punished based on conditions set and whether the threat is fulfilled.";
     violations :=
       [
         {| title := "Grave threats";
            basis := "Revised Penal Code Art. 282";
            text :=
              "Article 282 punishes any person who threatens another with the infliction of a wrong amounting to a crime. The penalty varies depending on whether a demand or condition is imposed and whether the threat is communicated in writing or through a middleman【467119748815266†L161-L178】.";
            penalty :=
              "If the threat includes a demand and the offender attains the objective, the penalty is one degree lower than that prescribed for the threatened crime. If the objective is not attained, two degrees lower; if there is no demand or condition, the penalty is arresto mayor and a fine up to ₱100,000【467119748815266†L161-L178】." |}
       ];
     jurisprudence :=
       [
         {| cite_title := "Paera v. People (G.R. No. 181626)";
            cite_summary :=
              "The Court upheld the conviction of a barangay chairman who brandished a bolo and threatened his neighbours by shouting “I will kill you,” ruling that his actions constituted grave threats【701912971857914†L75-L110】." |}
       ];
     counters :=
       [
         {| title := "Provocation and self‑defense";
            basis := "General defence";
            text :=
              "Respondents may argue that any threatening statement was provoked or uttered in self‑defense. The presence of mitigating circumstances can reduce criminal liability.";
            penalty :=
              "Penalties may be lowered if mitigating circumstances are established." |};
         {| title := "False accusation / Oral defamation";
            basis := "Revised Penal Code Art. 358";
            text :=
              "The respondent may counter‑charge for libel or oral defamation if the complainant exaggerated or fabricated the alleged threats.";
            penalty :=
              "Serious oral defamation is punishable by arresto mayor to prision correccional; slight defamation by arresto menor or fine【302115606301760†L4784-L4793】." |}
       ] |}.

Definition LEGAL_DATA_defamation : LegalRecord :=
  {| nature := "Oral Defamation (Slander)";
     description :=
       "Oral defamation or slander consists in speaking ill of another, imputing a vice, defect or act which tends to cause dishonour, discredit or contempt.";
     violations :=
       [
         {| title := "Oral defamation";
            basis := "Revised Penal Code Art. 358";
            text :=
              "Article 358 punishes oral defamation: serious defamation is committed when imputations are serious, while slight defamation covers minor insults. The provision prescribes the applicable penalties【302115606301760†L4784-L4793】.";
            penalty :=
              "Serious oral defamation: arresto mayor to prision correccional; slight defamation: arresto menor or a fine not exceeding ₱200【302115606301760†L4784-L4793】." |}
       ];
     jurisprudence :=
       [
         {| cite_title := "Balite v. People (G.R. L‑21475, 30 Sept 1966)";
            cite_summary :=
              "The Supreme Court convicted a union president of grave oral defamation after he publicly accused another of misappropriating strike funds; the Court imposed arresto mayor and prision correccional【363720073413201†L79-L87】【363720073413201†L117-L124】." |}
       ];
     counters :=
       [
         {| title := "Truth and privileged communications";
            basis := "Revised Penal Code Arts. 354 & 361";
            text :=
              "Statements made in the performance of a lawful duty or in privileged occasions (e.g., judicial proceedings) are not actionable if true and made in good faith.";
            penalty :=
              "No criminal liability if privilege is established." |};
         {| title := "Counter‑libel against complainant";
            basis := "Revised Penal Code Art. 358";
            text :=
              "If the complainant publicly utters false accusations or defamatory statements during the case, the respondent may file a libel or defamation case.";
            penalty :=
              "Serious oral defamation: arresto mayor to prision correccional; slight defamation: arresto menor or fine【302115606301760†L4784-L4793】." |}
       ] |}.

Definition LEGAL_DATA_injury : LegalRecord :=
  {| nature := "Physical Injuries";
     description :=
       "Physical injuries offences punish acts inflicting bodily harm. Slight physical injuries cover cases where incapacity or medical attendance does not exceed nine days.";
     violations :=
       [
         {| title := "Slight physical injuries";
            basis := "Revised Penal Code Art. 266";
            text :=
              "Article 266 penalises slight physical injuries and maltreatment. When the offended party is incapacitated for labour or needs medical attendance from one to nine days, the penalty is arresto menor; if the injuries do not prevent work, a fine not exceeding ₱500 is imposed【302115606301760†L3534-L3546】.";
            penalty :=
              "Arresto menor (1–30 days) or fine up to ₱500【302115606301760†L3534-L3546】." |}
       ];
     jurisprudence := [];
     counters :=
       [
         {| title := "Self‑defense";
            basis := "General defence";
            text :=
              "Respondent may assert that any injuries were inflicted in lawful self‑defense or defense of a relative, which can justify the act.";
            penalty :=
              "No criminal liability if all elements of self‑defense are present." |};
         {| title := "Mutual affray";
            basis := "Revised Penal Code Art. 251";
            text :=
              "If both parties voluntarily engaged in a fight, each may be liable only for lesser offences depending on the injuries inflicted.";
            penalty :=
              "Penalties vary by resulting injuries and participation." |}
       ] |}.

Definition LEGAL_DATA_general : LegalRecord :=
  {| nature := "General Complaint / Other Offence";
     description :=
       "The facts provided do not clearly correspond to a single criminal classification. Barangay officials should evaluate all facts and identify applicable laws.";
     violations :=
       [
         {| title := "Barangay justice system";
            basis := "Local Government Code & Katarungang Pambarangay Rules";
            text :=
              "Most disputes between residents of the same barangay must be referred to the Lupong Tagapamayapa for amicable settlement before they can be filed in court. Exceptions include offences punishable by more than one year’s imprisonment or a fine exceeding ₱5,000.";
            penalty :=
              "If mediation fails, the complaint may proceed to the courts." |};
         {| title := "Relevant local ordinances";
            basis := "San Pedro City ordinances";
            text :=
              "San Pedro City enacts ordinances on matters such as noise control, curfew, sanitation, environmental protection and employment. Depending on the complaint, specific ordinances may apply.";
            penalty :=
              "Penalties vary by ordinance." |}
       ];
     jurisprudence := [];
     counters := [] |}.

(** The properties of the object literal [LEGAL_DATA], in the order of the
    source. *)
Definition LEGAL_DATA_entries : list (string * LegalRecord) :=
  [ ("theft", LEGAL_DATA_theft);
    ("threat", LEGAL_DATA_threat);
    ("defamation", LEGAL_DATA_defamation);
    ("injury", LEGAL_DATA_injury);
    ("general", LEGAL_DATA_general) ].

(** The object [LEGAL_DATA]. *)
Definition LEGAL_DATA : gmap string LegalRecord :=
  list_to_map LEGAL_DATA_entries.

(** [LEGAL_DATA[classification]], read among the own properties of the
    literal.  It is the answer of the code at the five keys of the literal,
    and at every other key that [Object.prototype] does not define, where
    both give no record; at a name inherited from [Object.prototype] the code
    finds a function or an object and this definition says nothing. *)
Definition lookup_legal (classification : string) : option LegalRecord :=
  LEGAL_DATA !! classification.

(** ** Runtime

    A [Date] object is its time value: [Some ms], the milliseconds since the
    epoch, or [None] for the invalid date (a time value of [NaN]). *)

Class Runtime := {
  (** [new Date(text)]: the time value the engine reads from a text. *)
  Date_parse : string -> option Z;
  (** The en-US rendering, date and time, of a time value in the time zone
      Asia/Manila. *)
  formatDateTime : Z -> string;
  (** The en-US rendering, date only, of a time value in the time zone
      Asia/Manila. *)
  formatDate : Z -> string
}.

(** [push] on an array and [slice] between two indices inside it. *)
Definition push {A : Type} (arr : list A) (x : A) : list A := arr ++ [x].

Definition slice {A : Type} (b e : nat) (arr : list A) : list A :=
  firstn (e - b) (skipn b arr).

Record MediationStrategy := {
  objectives : list string;
  issues : list string;
  notForMediation : list string;
  outcomes : list string
}.

Record QuestionSet := {
  openEnded : list string;
  clarifying : list string;
  reflective : list string;
  exploratory : list string;
  conscience : list string
}.

Section Generators.
Context {rt : Runtime}.

(** [d.toLocaleString('en-US', { timeZone: 'Asia/Manila' })]; the invalid date
    is rendered as the text [Invalid Date]. *)
Definition toLocaleString (d : option Z) : string :=
  match d with
  | Some ms => formatDateTime ms
  | None => "Invalid Date"
  end.

(** [d.toLocaleDateString('en-US', { timeZone: 'Asia/Manila' })]. *)
Definition toLocaleDateString (d : option Z) : string :=
  match d with
  | Some ms => formatDate ms
  | None => "Invalid Date"
  end.

(** [now] is the reading of the clock made by [new Date()]. *)
Definition generateMediationStrategy (now : Z) (classification : string)
  : MediationStrategy :=
  let now := Some now in
  let localeDate := toLocaleDateString now in
  let commonObjectives :=
    [
       "Clarify all facts and ensure both parties are fully heard";
       "Encourage parties to agree on appropriate restitution or compensation";
       "Promote respect and restore harmony within the barangay community";
       "Prevent escalation to formal court proceedings when possible";
       "Ensure compliance with applicable laws and ordinances"
    ] in
  let issues : list string := [] in
  let notForMediation : list string := [] in
  let outcomes : list string := [] in
  let '(issues, notForMediation, outcomes) :=
    if String.eqb classification "theft" then
      let issues := push issues
        "Return of the allegedly stolen property or restitution of its value" in
      let issues := push issues
        "Apology and acknowledgement of harm caused" in
      let issues := push issues
        "Agreement on future conduct and respect for property rights" in
      let notForMediation := push notForMediation
        "Determination of criminal guilt for theft (requires court jurisdiction)" in
      let outcomes := push outcomes
        "Full restitution and documented apology" in
      let outcomes := push outcomes
        "Community service or volunteer work as a gesture of remorse" in
      (issues, notForMediation, outcomes)
    else if String.eqb classification "threat" then
      let issues := push issues
        "Commitment by respondent to refrain from making threats or harassing statements" in
      let issues := push issues
        "Discussion of any underlying disputes prompting the threat" in
      let issues := push issues
        "Agreement on safety measures or distance requirements" in
      let notForMediation := push notForMediation
        "Prosecution of grave threats if elements are present" in
      let outcomes := push outcomes
        "Written undertaking to maintain peace and respect" in
      let outcomes := push outcomes
        "Agreement on mutual non‑harassment or communications guidelines" in
      (issues, notForMediation, outcomes)
    else if String.eqb classification "defamation" then
      let issues := push issues
        "Withdrawal or correction of defamatory statements" in
      let issues := push issues
        "Public or written apology to restore reputation" in
      let issues := push issues
        "Agreement to avoid repeating defamatory statements in the future" in
      let notForMediation := push notForMediation
        "Criminal prosecution for serious defamation" in
      let outcomes := push outcomes
        "Signed retraction and apology" in
      let outcomes := push outcomes
        "Community clarification to mitigate reputational harm" in
      (issues, notForMediation, outcomes)
    else if String.eqb classification "injury" then
      let issues := push issues
        "Compensation for medical expenses and lost wages" in
      let issues := push issues
        "Agreement on avoiding physical confrontation in future" in
      let issues := push issues
        "Exploring root causes of the altercation" in
      let notForMediation := push notForMediation
        "Determination of liability for serious physical injuries" in
      let outcomes := push outcomes
        "Payment of medical costs and damages" in
      let outcomes := push outcomes
        "Mutual agreement to maintain distance and respect" in
      (issues, notForMediation, outcomes)
    else
      let issues := push issues
        "Clarification of the specific grievances presented" in
      let issues := push issues
        "Identification of applicable laws and ordinances" in
      let issues := push issues
        "Exploration of remedies agreeable to both parties" in
      let notForMediation := push notForMediation
        "Matters involving imprisonment of more than one year or fines over ₱5,000" in
      let outcomes := push outcomes
        "Amicable settlement documented with the Lupong Tagapamayapa" in
      let outcomes := push outcomes
        "Referral to appropriate agencies if outside barangay jurisdiction" in
      (issues, notForMediation, outcomes)
  in
  let selectedObjectives := slice 0 5 commonObjectives in
  {| objectives := selectedObjectives;
     issues := issues;
     notForMediation := notForMediation;
     outcomes := outcomes |}.

Definition generateQuestions (classification role location dateTime : string)
  : QuestionSet :=
  let party := if String.eqb role "complainant" then "you" else "you" in
  let dt := if truthy dateTime then toLocaleString (Date_parse dateTime) else "" in
  let loc := if truthy location then location else "the location" in
  let openEnded : list string := [] in
  let clarifying : list string := [] in
  let reflective : list string := [] in
  let exploratory : list string := [] in
  let conscience : list string := [] in
  let openEnded := push openEnded
    ("Can you describe in your own words what happened at " +:+ loc +:+ " on " +:+ dt +:+ "?") in
  let openEnded := push openEnded
    "What events led up to the incident and how did you react?" in
  let openEnded := push openEnded
    "How has this incident affected you personally and your daily life?" in
  let clarifying := push clarifying
    "What time did the incident occur and who else was present?" in
  let clarifying := push clarifying
    ("Where exactly at " +:+ loc +:+ " did the interaction take place?") in
  let clarifying := push clarifying
    "Can you specify any statements or actions you find particularly significant?" in
  let reflective := push reflective
    "How do you think the other party felt during the incident?" in
  let reflective := push reflective
    "Looking back, is there anything you wish had been done differently?" in
  let reflective := push reflective
    "How has this dispute impacted your relationship with the other party?" in
  let exploratory := push exploratory
    "What do you consider a fair and just resolution to this dispute?" in
  let exploratory := push exploratory
    "Are there any compromises you are willing to make to settle this matter?" in
  let exploratory := push exploratory
    "What would rebuilding trust look like for you?" in
  let conscience := push conscience
    "If the roles were reversed, how would you want to be treated?" in
  let conscience := push conscience
    "What message do you want to send to the community about resolving disputes?" in
  let conscience := push conscience
    "How would an amicable settlement benefit both you and the other party?" in
  {| openEnded := openEnded;
     clarifying := clarifying;
     reflective := reflective;
     exploratory := exploratory;
     conscience := conscience |}.

End Generators.

(** ** The intake form *)

Record PartyInfo := {
  name : string;
  phone : string;
  email : string;
  address : string
}.

(** The values of the controls of the page, named after their element ids;
    [el_respondents] holds the four values of each respondent block, in
    document order.  A control's value is always a string. *)
Record Form := {
  el_caseId : string;
  el_dateReceived : string;
  el_complainantName : string;
  el_complainantPhone : string;
  el_complainantEmail : string;
  el_complainantAddress : string;
  el_respondents : list PartyInfo;
  el_incidentSummary : string;
  el_incidentLocation : string;
  el_incidentDateTime : string
}.

(** Which of the three required controls carry the class [is-invalid] once
    [validateForm] has run. *)
Record Marks := {
  summaryInvalid : bool;
  locationInvalid : bool;
  dateInvalid : bool
}.

Definition validateForm (f : Form) : Marks * bool :=
  let summaryEl := el_incidentSummary f in
  let locationEl := el_incidentLocation f in
  let dateEl := el_incidentDateTime f in
  let valid := true in
  let '(mSummary, valid) :=
    if negb (truthy summaryEl) || (String.length (trim summaryEl) <? 30)%nat
    then (true, false) else (false, valid) in
  let '(mLocation, valid) :=
    if negb (truthy locationEl) || (String.length (trim locationEl) =? 0)%nat
    then (true, false) else (false, valid) in
  let '(mDate, valid) :=
    if negb (truthy dateEl)
    then (true, false) else (false, valid) in
  ({| summaryInvalid := mSummary;
      locationInvalid := mLocation;
      dateInvalid := mDate |}, valid).

Record IncidentInfo := {
  summary : string;
  location : string;
  dateTime : string
}.

Record FormData := {
  caseId : string;
  dateReceived : string;
  complainant : PartyInfo;
  respondents : list PartyInfo;
  incident : IncidentInfo;
  caseTitle : string
}.

(** One respondent block read by [gatherData]: the trimmed values, kept when
    at least one of them is filled. *)
Definition gatherRespondent (div : PartyInfo) (acc : list PartyInfo)
  : list PartyInfo :=
  let name_ := trim (name div) in
  let phone_ := trim (phone div) in
  let email_ := trim (email div) in
  let address_ := trim (address div) in
  if truthy name_ || truthy phone_ || truthy email_ || truthy address_
  then push acc {| name := name_; phone := phone_; email := email_;
                   address := address_ |}
  else acc.

Definition gatherData (f : Form) : FormData :=
  let caseId_ := trim (el_caseId f) in
  let dateReceived_ := el_dateReceived f in
  let complainant_ :=
    {| name := trim (el_complainantName f);
       phone := trim (el_complainantPhone f);
       email := trim (el_complainantEmail f);
       address := trim (el_complainantAddress f) |} in
  let respondents_ :=
    fold_left (fun acc div => gatherRespondent div acc) (el_respondents f) [] in
  let incident_ :=
    {| summary := trim (el_incidentSummary f);
       location := trim (el_incidentLocation f);
       dateTime := el_incidentDateTime f |} in
  let caseTitle_ := "Complainant Case" in
  let caseTitle_ :=
    if truthy (name complainant_) then name complainant_ +:+ " Case"
    else caseTitle_ in
  {| caseId := caseId_;
     dateReceived := dateReceived_;
     complainant := complainant_;
     respondents := respondents_;
     incident := incident_;
     caseTitle := caseTitle_ |}.

(** ** Report generation *)

Record RoleQuestions := {
  for_complainant : QuestionSet;
  for_respondent : QuestionSet
}.

(** The record [reportData]: the gathered form data (spread into the record
    by the source, kept here as one field) and the three derived parts.
    [analysis] is [None] when the table has no entry at the key. *)
Record ReportData := {
  formData : FormData;
  analysis : option LegalRecord;
  mediation : MediationStrategy;
  questions : RoleQuestions
}.

(** What one run of [generateReport] does, statement by statement. *)
Inductive Step :=
| Validated (m : Marks) (valid : bool)
| ScrolledToTop
| Gathered (d : FormData)
| Classified (classification : string)
| Analyzed (a : option LegalRecord)
| Strategized (m : MediationStrategy)
| Questioned (q : RoleQuestions)
| Rendered (r : ReportData)
| ReportShown
| ScrolledToReport.

Section Report.
Context {rt : Runtime}.

Definition generateReport (now : Z) (f : Form) : list Step :=
  let '(marks, valid) := validateForm f in
  if negb valid then
    [Validated marks valid; ScrolledToTop]
  else
    let formData_ := gatherData f in
    let classification := classifyCase (summary (incident formData_)) in
    let analysis_ := lookup_legal classification in
    let mediation_ := generateMediationStrategy now classification in
    let questions_ :=
      {| for_complainant :=
           generateQuestions classification "complainant"
             (location (incident formData_)) (dateTime (incident formData_));
         for_respondent :=
           generateQuestions classification "respondent"
             (location (incident formData_)) (dateTime (incident formData_)) |} in
    let reportData :=
      {| formData := formData_;
         analysis := analysis_;
         mediation := mediation_;
         questions := questions_ |} in
    [Validated marks valid; Gathered formData_; Classified classification;
     Analyzed analysis_; Strategized mediation_; Questioned questions_;
     Rendered reportData; ReportShown; ScrolledToReport].

End Report.

(** The record a run handed to [renderReport], if it got that far. *)
Fixpoint rendered (steps : list Step) : option ReportData :=
  match steps with
  | [] => None
  | Rendered r :: _ => Some r
  | _ :: rest => rendered rest
  end.

(** The pure stages a run went through. *)
Definition isCoreStep (s : Step) : bool :=
  match s with
  | Classified _ | Analyzed _ | Strategized _ | Questioned _ | Rendered _ => true
  | _ => false
  end.

(** ** A reference runtime

    An engine whose local time zone is Asia/Manila (UTC+8, no daylight
    saving).  [new Date(text)] reads the local date-time forms a
    [datetime-local] control produces, [YYYY-MM-DDTHH:mm] and
    [YYYY-MM-DDTHH:mm:ss], and gives the invalid date for every other text;
    the en-US rendering is [M/D/YYYY, h:mm:ss AM] with plain spaces. *)
Module Host.

Definition digit (c : ascii) : option Z :=
  let n := nat_of_ascii c in
  if ((48 <=? n) && (n <=? 57))%nat then Some (Z.of_nat n - 48) else None.

(** The number written by a non-empty run of decimal digits. *)
Fixpoint number_from (acc : Z) (s : string) : option Z :=
  match s with
  | EmptyString => Some acc
  | String c t =>
      match digit c with
      | Some d => number_from (10 * acc + d) t
      | None => None
      end
  end.

Definition number (s : string) : option Z :=
  match s with
  | EmptyString => None
  | _ => number_from 0 s
  end.

Definition isLeap (y : Z) : bool :=
  ((y mod 4 =? 0) && negb (y mod 100 =? 0)) || (y mod 400 =? 0).

Definition daysInMonth (y m : Z) : Z :=
  if m =? 2 then (if isLeap y then 29 else 28)
  else if (m =? 4) || (m =? 6) || (m =? 9) || (m =? 11) then 30
  else 31.

(** Days from 1970-01-01 to the civil date [y]-[m]-[d]. *)
Definition daysFromCivil (y m d : Z) : Z :=
  let y' := if m <=? 2 then y - 1 else y in
  let era := y' / 400 in
  let yoe := y' - era * 400 in
  let doy := (153 * (if 2 <? m then m - 3 else m + 9) + 2) / 5 + d - 1 in
  let doe := yoe * 365 + yoe / 4 - yoe / 100 + doy in
  era * 146097 + doe - 719468.

(** The civil date, year month day, of a day number. *)
Definition civilFromDays (z : Z) : Z * Z * Z :=
  let z := z + 719468 in
  let era := z / 146097 in
  let doe := z - era * 146097 in
  let yoe := (doe - doe / 1460 + doe / 36524 - doe / 146096) / 365 in
  let doy := doe - (365 * yoe + yoe / 4 - yoe / 100) in
  let mp := (5 * doy + 2) / 153 in
  let d := doy - (153 * mp + 2) / 5 + 1 in
  let m := if mp <? 10 then mp + 3 else mp - 9 in
  let y := yoe + era * 400 in
  (if m <=? 2 then y + 1 else y, m, d).

Definition msPerDay : Z := 86400000.
Definition manilaOffset : Z := 8 * 3600000.

Definition charAt (i : nat) (s : string) : string := substring i 1 s.

Definition parse (s : string) : option Z :=
  let n := String.length s in
  if negb ((n =? 16) || (n =? 19))%nat then None else
  if negb (String.eqb (charAt 4 s) "-" && String.eqb (charAt 7 s) "-" &&
           String.eqb (charAt 10 s) "T" && String.eqb (charAt 13 s) ":" &&
           ((n =? 16)%nat || String.eqb (charAt 16 s) ":")) then None else
  y ← number (substring 0 4 s);
  m ← number (substring 5 2 s);
  d ← number (substring 8 2 s);
  h ← number (substring 11 2 s);
  mi ← number (substring 14 2 s);
  sec ← (if (n =? 16)%nat then Some 0 else number (substring 17 2 s));
  if (1 <=? m) && (m <=? 12) && (1 <=? d) && (d <=? daysInMonth y m) &&
     (h <=? 23) && (mi <=? 59) && (sec <=? 59)
  then Some (daysFromCivil y m d * msPerDay
             + ((h * 60 + mi) * 60 + sec) * 1000 - manilaOffset)
  else None.

Definition decimal (z : Z) : string := pretty z.

Definition twoDigits (z : Z) : string :=
  if z <? 10 then "0" +:+ decimal z else decimal z.

Definition dateText (ms : Z) : string :=
  let '(y, m, d) := civilFromDays ((ms + manilaOffset) / msPerDay) in
  decimal m +:+ "/" +:+ decimal d +:+ "/" +:+ decimal y.

Definition timeText (ms : Z) : string :=
  let secs := ((ms + manilaOffset) mod msPerDay) / 1000 in
  let h := secs / 3600 in
  let mi := (secs / 60) mod 60 in
  let sec := secs mod 60 in
  let h12 := if h mod 12 =? 0 then 12 else h mod 12 in
  decimal h12 +:+ ":" +:+ twoDigits mi +:+ ":" +:+ twoDigits sec +:+
  (if h <? 12 then " AM" else " PM").

Definition runtime : Runtime := {|
  Date_parse := parse;
  formatDateTime := fun ms => dateText ms +:+ ", " +:+ timeText ms;
  formatDate := dateText
|}.

End Host.

(** ** Reading a question set

    The question at an index of a list, the empty text when there is none, and
    the thirteen questions that are left when the first open-ended and the
    second clarifying question are taken out. *)

Definition question (i : nat) (l : list string) : string := nth i l "".

Definition dropAt {A : Type} (i : nat) (l : list A) : list A :=
  firstn i l ++ skipn (S i) l.

Definition allQuestions (q : QuestionSet) : list string :=
  openEnded q ++ clarifying q ++ reflective q ++ exploratory q ++ conscience q.

(** Every question but the first open-ended one. *)
Definition afterFirst (q : QuestionSet) : list string :=
  dropAt 0 (allQuestions q).

(** Every question but the first open-ended and the second clarifying one
    (the fifth of the fifteen, index 4; index 3 once the first is out). *)
Definition fixedQuestions (q : QuestionSet) : list string :=
  dropAt 3 (afterFirst q).

(** The two texts the templates are filled with: the value of
    [location || 'the location'] and the value of the conditional on
    [dateTime]. *)
Definition locText (loc : string) : string :=
  if truthy loc then loc else "the location".

Definition dtText {rt : Runtime} (dt : string) : string :=
  if truthy dt then toLocaleString (Date_parse dt) else "".

(** ** Two forms

    The form of the carabao scenario, and a form whose summary has 29
    characters once trimmed. *)

Definition carabaoForm : Form :=
  {| el_caseId := "BC-2024-017";
     el_dateReceived := "2024-05-02";
     el_complainantName := "Juan Dela Cruz";
     el_complainantPhone := "";
     el_complainantEmail := "";
     el_complainantAddress := "Purok 3, San Pedro City";
     el_respondents :=
       [ {| name := "Pedro Santos"; phone := ""; email := ""; address := "" |};
         {| name := " "; phone := ""; email := ""; address := "" |} ];
     el_incidentSummary :=
       "Someone took my neighbor's carabao while I was sleeping";
     el_incidentLocation := "Purok 3, San Pedro City";
     el_incidentDateTime := "2024-05-01T20:00" |}.

Definition shortForm : Form :=
  {| el_caseId := "";
     el_dateReceived := "";
     el_complainantName := "Juan Dela Cruz";
     el_complainantPhone := "";
     el_complainantEmail := "";
     el_complainantAddress := "";
     el_respondents := [];
     el_incidentSummary := "  He took my bike from the yard ";
     el_incidentLocation := "Purok 3, San Pedro City";
     el_incidentDateTime := "2024-05-01T20:00" |}.

(** ** Reading gathered data

    The first and the last character of a text; a text is trimmed when
    neither is white space.  [trimParty] and [anyFilled] name the two things
    [gatherData] does with a respondent block: trim its four values, and ask
    whether one of them is left non-empty. *)

Definition firstChar (s : string) : option ascii :=
  match s with
  | EmptyString => None
  | String c _ => Some c
  end.

Fixpoint lastChar (s : string) : option ascii :=
  match s with
  | EmptyString => None
  | String c t =>
      match lastChar t with
      | None => Some c
      | Some d => Some d
      end
  end.

Definition trimmed (s : string) : Prop :=
  (forall c, firstChar s = Some c -> isWhiteSpace c = false) /\
  (forall c, lastChar s = Some c -> isWhiteSpace c = false).

Definition trimParty (p : PartyInfo) : PartyInfo :=
  {| name := trim (name p); phone := trim (phone p);
     email := trim (email p); address := trim (address p) |}.

Definition anyFilled (p : PartyInfo) : bool :=
  truthy (name p) || truthy (phone p) || truthy (email p) || truthy (address p).

Definition partyTrimmed (p : PartyInfo) : Prop :=
  trimmed (name p) /\ trimmed (phone p) /\ trimmed (email p) /\
  trimmed (address p).

(** ** Reading the classifier

    The place of a classification in the order of the cascade, the earliest
    first; a keyword is black when it is not empty and holds no white space;
    the theft pattern without the two alternatives that contain another
    one. *)

Definition rank (classification : string) : nat :=
  if String.eqb classification "theft" then 0
  else if String.eqb classification "threat" then 1
  else if String.eqb classification "defamation" then 2
  else if String.eqb classification "injury" then 3
  else 4.

Definition black (kw : string) : bool :=
  truthy kw && forallb (fun c => negb (isWhiteSpace c)) (list_ascii_of_string kw).

Definition theftPatternShort : RegExp :=
  ["steal"; "theft"; "stole"; "rob"; "take"; "took"; "takin"; "missing"].

(** ** The respondent blocks of the page

    The element [respondentContainer] holds the respondent blocks, in
    document order.  Of a block the script reads and writes the text of its
    index span, the [display] style of its remove button and the values of
    its four controls; every block has the span and the button, as the
    template of the clear listener and the clones made from it do. *)

Record RespondentDiv := {
  respondent_index : string;
  remove_display : string;
  controls : PartyInfo
}.

Definition blankParty : PartyInfo :=
  {| name := ""; phone := ""; email := ""; address := "" |}.

Definition refreshRespondentIndices (respondents : list RespondentDiv)
  : list RespondentDiv :=
  imap (fun index div =>
          {| respondent_index := pretty (index + 1)%nat;
             remove_display :=
               if (1 <? length respondents)%nat then "inline-block" else "none";
             controls := controls div |})
       respondents.

(** [None] is the exception raised by [last.cloneNode] when the container
    has no block and [last] is [undefined]. *)
Definition addRespondent (container : list RespondentDiv)
  : option (list RespondentDiv) :=
  let respondents := container in
  match last respondents with
  | None => None
  | Some last_ =>
      let clone := last_ in
      let clone :=
        {| respondent_index := respondent_index clone;
           remove_display := remove_display clone;
           controls := blankParty |} in
      let container := container ++ [clone] in
      Some (refreshRespondentIndices container)
  end.

(** [div] is the position of the block that encloses the button, [None] when
    the button is in no block. *)
Definition removeRespondent (div : option nat) (container : list RespondentDiv)
  : list RespondentDiv :=
  match div with
  | None => container
  | Some i => refreshRespondentIndices (delete i container)
  end.

(** What a click inside the container landed on. *)
Inductive ClickTarget :=
| RemoveButton (i : nat)
| OtherElement.

(** The click listener of the container. *)
Definition onContainerClick (target : ClickTarget)
    (container : list RespondentDiv) : list RespondentDiv :=
  match target with
  | RemoveButton i => removeRespondent (Some i) container
  | OtherElement => container
  end.

(** The block the clear listener builds from its template. *)
Definition respondentTemplate : RespondentDiv :=
  {| respondent_index := "1"; remove_display := "none"; controls := blankParty |}.

Record RespondentsPage := {
  reportSection_hidden : bool;
  respondentContainer : list RespondentDiv
}.

(** The click listener of the clear button. *)
Definition onClear (page : RespondentsPage) : RespondentsPage :=
  let container : list RespondentDiv := [] in
  let container := container ++ [respondentTemplate] in
  {| reportSection_hidden := true;
     respondentContainer := refreshRespondentIndices container |}.

(** The form read from a page whose respondent blocks are [container]. *)
Definition withRespondents (f : Form) (container : list RespondentDiv) : Form :=
  {| el_caseId := el_caseId f;
     el_dateReceived := el_dateReceived f;
     el_complainantName := el_complainantName f;
     el_complainantPhone := el_complainantPhone f;
     el_complainantEmail := el_complainantEmail f;
     el_complainantAddress := el_complainantAddress f;
     el_respondents := map controls container;
     el_incidentSummary := el_incidentSummary f;
     el_incidentLocation := el_incidentLocation f;
     el_incidentDateTime := el_incidentDateTime f |}.

(** The containers the user can get to after a clear: by adding a block, by
    a click on a remove button that is displayed, by a click elsewhere, by
    another clear. *)
Inductive Reachable : list RespondentDiv -> Prop :=
| Reachable_clear page : Reachable (respondentContainer (onClear page))
| Reachable_add c c' :
    Reachable c -> addRespondent c = Some c' -> Reachable c'
| Reachable_remove c i d :
    Reachable c -> c !! i = Some d -> remove_display d = "inline-block" ->
    Reachable (onContainerClick (RemoveButton i) c)
| Reachable_other c :
    Reachable c -> Reachable (onContainerClick OtherElement c).

(** ** Legal search ([research.js], [config.js])

    The configuration object [window.LEGAL_SEARCH] and each of its
    properties may be missing ([None]).  The network is a function from the
    requested address to what [fetch] settles with; a promise that rejects
    and a function that throws are [Throws] with the message of the error.
    A search is followed to its end: what the page shows while the request
    is pending, and two searches in flight at once, are outside the model.
    The body of a response, when it parses, is taken to be an object whose
    [items], when present, is an array of objects with a title, a link and a
    displayLink. *)
Module Research.

Inductive Outcome (A : Type) :=
| Returns (a : A)
| Throws (message : string).
Arguments Returns {A} a.
Arguments Throws {A} message.

Record SearchConfig := {
  GOOGLE_API_KEY : option string;
  GOOGLE_CSE_ID : option string;
  ALLOWED_SITES : option (list string)
}.

(** The object literal of [config.js]. *)
Definition LEGAL_SEARCH : option SearchConfig :=
  Some {| GOOGLE_API_KEY := Some "";
          GOOGLE_CSE_ID := Some "";
          ALLOWED_SITES :=
            Some [ "lawphil.net";
                   "chanrobles.com";
                   "sc.judiciary.gov.ph";
                   "ca.judiciary.gov.ph";
                   "officialgazette.gov.ph";
                   "philippinelaw.allegheny.edu" ] |}.

(** [!v] for a property that is a string or is missing. *)
Definition falsy (v : option string) : bool :=
  match v with
  | None => true
  | Some s => negb (truthy s)
  end.

(** An item of the body of a response, and a result record. *)
Record ApiItem := {
  api_title : string;
  api_link : string;
  api_displayLink : string;
  api_snippet : option string
}.

Record Item := {
  title : string;
  link : string;
  displayLink : string;
  snippet : string
}.

Record SearchData := {
  items : option (list ApiItem)
}.

Record Response := {
  ok : bool;
  status : N;
  json : Outcome SearchData
}.

(** *** [URLSearchParams.prototype.toString]

    The serializer of [application/x-www-form-urlencoded]: letters, digits
    and the four characters [*-._] are kept, the space becomes [+], every
    other byte becomes [%] and its two upper-case hexadecimal digits. *)

Definition hexDigit (n : nat) : ascii :=
  if (n <? 10)%nat then ascii_of_nat (48 + n) else ascii_of_nat (55 + n).

Definition isFormSafe (c : ascii) : bool :=
  let n := nat_of_ascii c in
  (((48 <=? n) && (n <=? 57)) || ((65 <=? n) && (n <=? 90)) ||
   ((97 <=? n) && (n <=? 122)) ||
   (n =? 42) || (n =? 45) || (n =? 46) || (n =? 95))%nat.

Definition encodeByte (c : ascii) : string :=
  if isFormSafe c then String c ""
  else if (nat_of_ascii c =? 32)%nat then "+"
  else String "%" (String (hexDigit (nat_of_ascii c / 16))
                     (String (hexDigit (nat_of_ascii c mod 16)) "")).

Fixpoint encode (s : string) : string :=
  match s with
  | EmptyString => EmptyString
  | String c t => encodeByte c +:+ encode t
  end.

Definition URLSearchParams_toString (params : list (string * string)) : string :=
  String.concat "&" (map (fun p => encode (fst p) +:+ "=" +:+ encode (snd p)) params).

(** *** [legalSearch]

    The result is the list of the addresses requested and the outcome. *)

Definition noConfig : SearchConfig :=
  {| GOOGLE_API_KEY := None; GOOGLE_CSE_ID := None; ALLOWED_SITES := None |}.

Definition legalSearch (window_LEGAL_SEARCH : option SearchConfig)
    (fetch : string -> Outcome Response) (query : string)
  : list string * Outcome (list Item) :=
  let cfg := default noConfig window_LEGAL_SEARCH in
  let apiKey := GOOGLE_API_KEY cfg in
  let cseId := GOOGLE_CSE_ID cfg in
  let domains := default [] (ALLOWED_SITES cfg) in
  if falsy apiKey || falsy cseId then
    ([], Throws "Please configure GOOGLE_API_KEY and GOOGLE_CSE_ID in config.js")
  else
    let domainFilter :=
      String.concat " OR " (map (fun d => "site:" +:+ d) domains) in
    let q := query +:+ " (" +:+ domainFilter +:+ ")" in
    let params :=
      [ ("key", default "" apiKey); ("cx", default "" cseId); ("q", q);
        ("num", "10") ] in
    let url :=
      "https://www.googleapis.com/customsearch/v1?"
        +:+ URLSearchParams_toString params in
    match fetch url with
    | Throws message => ([url], Throws message)
    | Returns res =>
        if negb (ok res) then
          ([url], Throws ("Search request failed: " +:+ pretty (status res)))
        else
          match json res with
          | Throws message => ([url], Throws message)
          | Returns data =>
              ([url],
               Returns
                 (map (fun item =>
                         {| title := api_title item;
                            link := api_link item;
                            displayLink := api_displayLink item;
                            snippet := default "" (api_snippet item) |})
                      (default [] (items data))))
          end
    end.

(** *** The search box and the citations *)

(** What the element [legal-results] holds: a text, or the cards of the
    results, each with the record it shows. *)
Inductive ResultsView :=
| ResultsText (s : string)
| ResultsCards (cards : list Item).

(** An entry of the citations list: the address and the text of its link,
    and the text after the link. *)
Record Citation := {
  citation_href : string;
  citation_text : string;
  citation_tail : string
}.

(** The three elements of the page the script looks up; each may be absent. *)
Record Page := {
  legal_query : option string;
  legal_results : option ResultsView;
  citationsList : option (list Citation)
}.

Definition setResults (page : Page) (v : ResultsView) : Page :=
  {| legal_query := legal_query page;
     legal_results := Some v;
     citationsList := citationsList page |}.

Definition runLegalSearchUI (window_LEGAL_SEARCH : option SearchConfig)
    (fetch : string -> Outcome Response) (query : string) (page : Page)
  : list string * Page :=
  match legal_results page with
  | None => ([], page)
  | Some _ =>
      let page := setResults page (ResultsText "Searching…") in
      match legalSearch window_LEGAL_SEARCH fetch query with
      | (requests, Returns items_) =>
          if (length items_ =? 0)%nat then
            (requests,
             setResults page (ResultsText "No results found on trusted sources."))
          else
            let page := setResults page (ResultsText "") in
            (requests, setResults page (ResultsCards items_))
      | (requests, Throws message) =>
          (requests, setResults page (ResultsText ("Error: " +:+ message)))
      end
  end.

Definition startLegalSearch (window_LEGAL_SEARCH : option SearchConfig)
    (fetch : string -> Outcome Response) (page : Page) : list string * Page :=
  match legal_query page with
  | None => ([], page)
  | Some input =>
      let q := trim input in
      if negb (truthy q) then ([], page)
      else runLegalSearchUI window_LEGAL_SEARCH fetch q page
  end.

Definition attachCitation (item : Item) (page : Page) : Page :=
  match citationsList page with
  | None => page
  | Some list_ =>
      let li :=
        {| citation_href := link item;
           citation_text := title item;
           citation_tail := " — " +:+ displayLink item |} in
      {| legal_query := legal_query page;
         legal_results := legal_results page;
         citationsList := Some (list_ ++ [li]) |}
  end.

(** How often a character occurs in a text. *)
Fixpoint count (c : ascii) (s : string) : nat :=
  match s with
  | EmptyString => 0
  | String a t => (if Ascii.eqb a c then 1 else 0) + count c t
  end.

End Research.

(** *** Reading a search

    The address a configured search requests, and the text it searches for:
    the query followed by the site restriction. *)

Definition searchUrl (apiKey cseId q : string) : string :=
  "https://www.googleapis.com/customsearch/v1?" +:+
  "key=" +:+ Research.encode apiKey +:+ "&cx=" +:+ Research.encode cseId +:+
  "&q=" +:+ Research.encode q +:+ "&num=10".

Definition searchText (query : string) (sites : option (list string)) : string :=
  query +:+ " (" +:+
  String.concat " OR " (map (fun d => "site:" +:+ d) (default [] sites)) +:+ ")".

(** The entry [attachCitation] makes of a result. *)
Definition citationOf (item : Research.Item) : Research.Citation :=
  {| Research.citation_href := Research.link item;
     Research.citation_text := Research.title item;
     Research.citation_tail := " — " +:+ Research.displayLink item |}.

(** A network that is down, and one that answers every request with the same
    two results. *)
Definition fetchDown (url : string) : Research.Outcome Research.Response :=
  Research.Throws "Failed to fetch".

Definition fetchTwo (url : string) : Research.Outcome Research.Response :=
  Research.Returns
    {| Research.ok := true;
       Research.status := 200%N;
       Research.json :=
         Research.Returns
           {| Research.items :=
                Some [ {| Research.api_title := "Revised Penal Code";
                          Research.api_link := "https://lawphil.net/rpc";
                          Research.api_displayLink := "lawphil.net";
                          Research.api_snippet := Some "Act No. 3815" |};
                       {| Research.api_title := "G.R. No. 181626";
                          Research.api_link := "https://sc.judiciary.gov.ph/1";
                          Research.api_displayLink := "sc.judiciary.gov.ph";
                          Research.api_snippet := None |} ] |} |}.

(** A page with the three elements, the text [theft & robbery] typed in the
    search box. *)
Definition searchPage : Research.Page :=
  {| Research.legal_query := Some "  theft & robbery ";
     Research.legal_results := Some (Research.ResultsText "");
     Research.citationsList := Some [] |}.

(** A configuration with a key and an engine id. *)
Definition configured : option Research.SearchConfig :=
  Some {| Research.GOOGLE_API_KEY := Some "KEY";
          Research.GOOGLE_CSE_ID := Some "CSE";
          Research.ALLOWED_SITES := Some ["lawphil.net"; "chanrobles.com"] |}.

(** ** Rendering ([renderReport])

    The children [renderReport] gives the element [reportContent], as a tree:
    an element has a tag, its classes and its children; a text set through
    [textContent] is a [TextNode], a markup text set through [innerHTML] is
    kept as written, unparsed, in a [Markup]. *)

#[local] Set Warnings "-register-all".

Inductive Node :=
| Elem (tag : string) (classes : list string) (children : list Node)
| TextNode (textContent : string)
| Markup (innerHTML : string).

(** How a call ended: normally, or on reading a property of [undefined]. *)
Inductive Completion := Normal | TypeError.

Section Render.
Context {rt : Runtime}.

(** The markup of a party line after its label; the source has these
    statements twice, for the complainant and for a respondent. *)
Definition partyHtml (html : string) (p : PartyInfo) : string :=
  let html := html +:+ (if truthy (name p) then name p else "N/A") in
  let contact : list string := [] in
  let contact :=
    if truthy (phone p) then push contact ("Phone: " +:+ phone p) else contact in
  let contact :=
    if truthy (email p) then push contact ("Email: " +:+ email p) else contact in
  let contact :=
    if truthy (address p) then push contact ("Address: " +:+ address p)
    else contact in
  if (0 <? length contact)%nat
  then html +:+ " – " +:+ String.concat "; " contact
  else html.

(** The markup of a violation or of a counter-charge. *)
Definition provisionHtml (v : Provision) : string :=
  "<strong>" +:+ title v +:+ "</strong><br/><em>Legal basis:</em> " +:+ basis v
  +:+ "<br/><em>Provision:</em> " +:+ text v
  +:+ "<br/><em>Penalty:</em> " +:+ penalty v.

(** A list element whose items hold one text each. *)
Definition textList (items : list string) : Node :=
  Elem "ul" [] (map (fun o => Elem "li" [] [TextNode o]) items).

Definition questionList (qs : QuestionSet) (category : string) : list string :=
  if String.eqb category "openEnded" then openEnded qs
  else if String.eqb category "clarifying" then clarifying qs
  else if String.eqb category "reflective" then reflective qs
  else if String.eqb category "exploratory" then exploratory qs
  else conscience qs.

Definition labelMap (category : string) : string :=
  if String.eqb category "openEnded" then "Open‑Ended Questions"
  else if String.eqb category "clarifying" then "Clarifying Questions"
  else if String.eqb category "reflective" then "Reflective Questions"
  else if String.eqb category "exploratory" then "Exploratory Questions"
  else "Questions Appealing to Conscience".

(** [now] is the reading of the clock made by [new Date()].  The result is
    the list of the children of [reportContent] when the call ends, and how
    it ended. *)
Definition renderReport (now : Z) (data : ReportData) : list Node * Completion :=
  let reportContent : list Node := [] in
  let fd := formData data in
  (* Header *)
  let now := Some now in
  let genDate := toLocaleString now in
  let title_ := Elem "h2" [] [TextNode (caseTitle fd)] in
  let sub := Elem "p" [] [Markup ("<em>Generated on " +:+ genDate +:+ "</em>")] in
  let header := Elem "div" ["text-center"; "mb-4"] [title_; sub] in
  let reportContent := push reportContent header in
  (* Profile section *)
  let profTitle := Elem "h3" [] [TextNode "Case & Parties Information"] in
  let profList : list Node := [] in
  let profList :=
    if truthy (caseId fd)
    then push profList
           (Elem "li" [] [Markup ("<strong>Case ID:</strong> " +:+ caseId fd)])
    else profList in
  let profList :=
    if truthy (dateReceived fd)
    then
      let recDate := toLocaleDateString (Date_parse (dateReceived fd)) in
      push profList
        (Elem "li" [] [Markup ("<strong>Date Received:</strong> " +:+ recDate)])
    else profList in
  let profList :=
    if truthy (name (complainant fd)) || truthy (phone (complainant fd))
       || truthy (email (complainant fd)) || truthy (address (complainant fd))
    then push profList
           (Elem "li" []
              [Markup (partyHtml "<strong>Complainant:</strong> " (complainant fd))])
    else profList in
  let profList :=
    if (0 <? length (respondents fd))%nat
    then profList ++
           imap (fun idx resp =>
                   Elem "li" []
                     [Markup (partyHtml ("<strong>Respondent "
                                           +:+ pretty (idx + 1)%nat
                                           +:+ ":</strong> ") resp)])
                (respondents fd)
    else profList in
  let profSec :=
    Elem "div" ["mb-4"] [profTitle; Elem "ul" ["list-unstyled"] profList] in
  let reportContent := push reportContent profSec in
  (* Incident details section *)
  let detailsTitle := Elem "h3" [] [TextNode "Incident Details"] in
  let sumli :=
    Elem "li" [] [Markup ("<strong>Summary:</strong> " +:+ summary (incident fd))] in
  let locli :=
    Elem "li" [] [Markup ("<strong>Location:</strong> " +:+ location (incident fd))] in
  let dtFormatted := toLocaleString (Date_parse (dateTime (incident fd))) in
  let dateli :=
    Elem "li" [] [Markup ("<strong>Date & Time:</strong> " +:+ dtFormatted)] in
  let detailsSec :=
    Elem "div" ["mb-4"]
      [detailsTitle; Elem "ul" ["list-unstyled"] [sumli; locli; dateli]] in
  let reportContent := push reportContent detailsSec in
  (* Legal analysis section *)
  match analysis data with
  | None => (reportContent, TypeError)
  | Some analysis_ =>
      let legalSec : list Node := [] in
      let legalSec := push legalSec (Elem "h3" [] [TextNode "Legal Research Analysis"]) in
      let legalSec := push legalSec (Elem "h4" [] [TextNode "Nature of Case"]) in
      let legalSec :=
        push legalSec
          (Elem "p" [] [TextNode (nature analysis_ +:+ ": " +:+ description analysis_)]) in
      let legalSec :=
        if (0 <? length (violations analysis_))%nat
        then
          let legalSec := push legalSec (Elem "h4" [] [TextNode "Possible Legal Violations by Respondent(s)"]) in
          push legalSec
            (Elem "ol" []
               (map (fun v => Elem "li" [] [Markup (provisionHtml v)])
                    (violations analysis_)))
        else legalSec in
      let legalSec :=
        if (0 <? length (jurisprudence analysis_))%nat
        then
          let legalSec := push legalSec (Elem "h4" [] [TextNode "Related Court Jurisprudence"]) in
          push legalSec
            (Elem "ol" []
               (map (fun c => Elem "li" []
                                [Markup ("<strong>" +:+ cite_title c +:+ "</strong>: "
                                           +:+ cite_summary c)])
                    (jurisprudence analysis_)))
        else legalSec in
      let legalSec :=
        if (0 <? length (counters analysis_))%nat
        then
          let legalSec := push legalSec (Elem "h4" [] [TextNode "Possible Counter‑Charges by Respondent(s)"]) in
          push legalSec
            (Elem "ol" []
               (map (fun c => Elem "li" [] [Markup (provisionHtml c)])
                    (counters analysis_)))
        else legalSec in
      let reportContent := push reportContent (Elem "div" ["mb-4"] legalSec) in
      (* Mediation strategy section *)
      let medSec :=
        Elem "div" ["mb-4"]
          [ Elem "h3" [] [TextNode "Mediation / Conciliation Strategy"];
            Elem "h4" [] [TextNode "Mediation Objectives"];
            textList (objectives (mediation data));
            Elem "h4" [] [TextNode "Issues Suitable for Mediation"];
            textList (issues (mediation data));
            Elem "h4" [] [TextNode "Issues NOT Suitable for Mediation"];
            textList (notForMediation (mediation data));
            Elem "h4" [] [TextNode "Expected Outcomes & Settlement Possibilities"];
            textList (outcomes (mediation data)) ] in
      let reportContent := push reportContent medSec in
      (* Strategic questions section *)
      let questionsSec : list Node := [] in
      let questionsSec := push questionsSec (Elem "h3" [] [TextNode "Strategic Questions for Mediation"]) in
      let questionsSec :=
        fold_left
          (fun questionsSec roleLabel =>
             let roleKey := toLowerCase roleLabel in
             let qs :=
               if String.eqb roleKey "complainant"
               then for_complainant (questions data)
               else for_respondent (questions data) in
             let questionsSec :=
               push questionsSec (Elem "h4" [] [TextNode roleLabel]) in
             fold_left
               (fun questionsSec category =>
                  let questionsSec :=
                    push questionsSec
                      (Elem "h5" ["mt-3"] [TextNode (labelMap category)]) in
                  push questionsSec (textList (questionList qs category)))
               ["openEnded"; "clarifying"; "reflective"; "exploratory";
                "conscience"]
               questionsSec)
          ["Complainant"; "Respondent"]
          questionsSec in
      let reportContent := push reportContent (Elem "div" ["mb-4"] questionsSec) in
      (* Disclaimer *)
      let disclaimer :=
        Elem "p" ["mt-4"; "fst-italic"]
          [TextNode
             "Disclaimer: This report is generated for informational purposes only and does not constitute legal advice. Barangay officials and parties should consult a qualified lawyer for definitive legal counsel."] in
      let reportContent := push reportContent disclaimer in
      (reportContent, Normal)
  end.

End Render.

(** *** Reading a rendered tree *)

(** The texts of the elements of a tag, in document order; the text of an
    element is that of its text children. *)
Definition ownText (children : list Node) : string :=
  String.concat ""
    (flat_map (fun n => match n with TextNode s => [s] | _ => [] end) children).

Fixpoint textsOf (tag : string) (n : Node) : list string :=
  match n with
  | Elem t _ children =>
      (if String.eqb t tag then [ownText children] else [])
      ++ flat_map (textsOf tag) children
  | _ => []
  end.

Definition textsIn (tag : string) (nodes : list Node) : list string :=
  flat_map (textsOf tag) nodes.

(** The children of [reportContent] at positions 4 and 5: the strategy and the
    questions. *)
Definition strategySection (nodes : list Node) : list Node :=
  firstn 1 (skipn 4 nodes).

Definition questionsSection (nodes : list Node) : list Node :=
  firstn 1 (skipn 5 nodes).

(** The child of [reportContent] at position 3: the legal analysis. *)
Definition legalSection (nodes : list Node) : list Node :=
  firstn 1 (skipn 3 nodes).

(** * Properties *)

(** ** The definitions on small inputs *)

Example trim_both_ends : trim "  a  b " = "a  b" /\ trim "   " = "".
Proof. split; reflexivity. Qed.

Example trim_white_space :
  trim (String (ascii_of_nat 9) (String (ascii_of_nat 10) "a b  ")) = "a b".
Proof. reflexivity. Qed.

Example toLowerCase_mixed : toLowerCase "He STOLE it, 3 Times!" = "he stole it, 3 times!".
Proof. reflexivity. Qed.

Example RegExp_test_inside : RegExp_test ["rob"; "robbed"] "probably" = true.
Proof. reflexivity. Qed.

Example RegExp_test_absent : RegExp_test ["rob"; "robbed"] "ro b" = false.
Proof. reflexivity. Qed.

Example classifyCase_each :
  map classifyCase
    [ "My phone is MISSING"; "He said he would kill my dog";
      "She spread a slander about me"; "He punched me in the face";
      "The neighbour's dog barks every night" ]
  = [ "theft"; "threat"; "defamation"; "injury"; "general" ].
Proof. vm_compute. reflexivity. Qed.

Example host_parse_format :
  toLocaleString (rt := Host.runtime)
    (Date_parse (Runtime := Host.runtime) "2024-05-01T20:00")
  = "5/1/2024, 8:00:00 PM".
Proof. vm_compute. reflexivity. Qed.

Example host_parse_rejects :
  map Host.parse [ ""; "unknown"; "2024-02-30T10:00"; "2024-05-01 20:00" ]
  = [ None; None; None; None ].
Proof. vm_compute. reflexivity. Qed.

Example gatherData_carabao :
  respondents (gatherData carabaoForm) =
    [ {| name := "Pedro Santos"; phone := ""; email := ""; address := "" |} ] /\
  caseTitle (gatherData carabaoForm) = "Juan Dela Cruz Case".
Proof. split; vm_compute; reflexivity. Qed.

Example validateForm_carabao :
  validateForm carabaoForm =
    ({| summaryInvalid := false; locationInvalid := false;
        dateInvalid := false |}, true).
Proof. vm_compute. reflexivity. Qed.

Example strategy_of_threat :
  notForMediation (generateMediationStrategy (rt := Host.runtime) 0 "threat")
  = [ "Prosecution of grave threats if elements are present" ].
Proof. reflexivity. Qed.

(** ** Strings and patterns *)

Lemma append_nil_l (s : string) : "" +:+ s = s.
Proof. reflexivity. Qed.

Lemma append_cons (c : ascii) (s t : string) :
  String c s +:+ t = String c (s +:+ t).
Proof. reflexivity. Qed.

Lemma append_assoc (s t u : string) : (s +:+ t) +:+ u = s +:+ t +:+ u.
Proof.
  induction s as [|c s IH]; [reflexivity|].
  rewrite !append_cons. now rewrite IH.
Qed.

Lemma toLowerCase_append (s t : string) :
  toLowerCase (s +:+ t) = toLowerCase s +:+ toLowerCase t.
Proof.
  induction s as [|c s IH]; [reflexivity|].
  rewrite append_cons. cbn [toLowerCase]. rewrite append_cons. now rewrite IH.
Qed.

Lemma startsWith_iff (lit txt : string) :
  startsWith lit txt = true <-> exists post, txt = lit +:+ post.
Proof.
  revert txt. induction lit as [|a lit IH]; intros txt.
  - split; [intros _; now exists txt | reflexivity].
  - destruct txt as [|b txt].
    + split; [discriminate | intros [post H]; discriminate H].
    + cbn [startsWith]. rewrite andb_true_iff, Ascii.eqb_eq, IH. split.
      * intros [-> [post ->]]. now exists post.
      * intros [post H]. rewrite append_cons in H. injection H as -> ->.
        split; [reflexivity | now exists post].
Qed.

Lemma matchHere_iff (re : RegExp) (txt : string) :
  matchHere re txt = true <->
  exists lit, In lit re /\ exists post, txt = lit +:+ post.
Proof.
  unfold matchHere. rewrite existsb_exists.
  split; intros [lit [Hin H]]; exists lit; (split; [exact Hin|]);
    now apply startsWith_iff.
Qed.

(** The matcher finds a match exactly when one of the alternatives occurs
    somewhere in the text. *)
Lemma RegExp_test_iff (re : RegExp) (txt : string) :
  RegExp_test re txt = true <-> OccursAny re txt.
Proof.
  split.
  - induction txt as [|c txt IH]; cbn [RegExp_test]; rewrite orb_true_iff.
    + intros [H | H]; [|discriminate].
      apply matchHere_iff in H as [lit [Hin [post ->]]].
      exists lit. split; [exact Hin|]. now exists "", post.
    + intros [H | H].
      * apply matchHere_iff in H as [lit [Hin [post ->]]].
        exists lit. split; [exact Hin|]. now exists "", post.
      * destruct (IH H) as [lit [Hin [pre [post ->]]]].
        exists lit. split; [exact Hin|]. now exists (String c pre), post.
  - intros [lit [Hin [pre [post ->]]]].
    induction pre as [|c pre IH].
    + rewrite append_nil_l.
      assert (Hm : matchHere re (lit +:+ post) = true).
      { apply matchHere_iff. exists lit. split; [exact Hin | now exists post]. }
      destruct (lit +:+ post); cbn [RegExp_test]; now rewrite Hm.
    + rewrite append_cons. cbn [RegExp_test]. rewrite IH. apply orb_true_r.
Qed.

Lemma RegExp_test_false_iff (re : RegExp) (txt : string) :
  RegExp_test re txt = false <-> ~ OccursAny re txt.
Proof.
  rewrite <- RegExp_test_iff. destruct (RegExp_test re txt); split;
    congruence.
Qed.

Lemma categoryKey_inj (c1 c2 : CaseCategory) :
  categoryKey c1 = categoryKey c2 -> c1 = c2.
Proof. destruct c1, c2; (reflexivity || discriminate). Qed.

Lemma FirstMatch_functional rules txt c1 c2 :
  FirstMatch rules txt c1 -> FirstMatch rules txt c2 -> c1 = c2.
Proof.
  intros H1. revert c2.
  induction H1; intros c2 H2; inversion H2; subst;
    (reflexivity || contradiction || auto).
Qed.

(** The cascade of [classifyCase] picks the first rule of [spec_rules]. *)
Lemma classifyCase_FirstMatch (s : string) :
  exists c, classifyCase s = categoryKey c /\
            FirstMatch spec_rules (toLowerCase s) c.
Proof.
  unfold classifyCase, spec_rules.
  destruct (RegExp_test theftPattern _) eqn:E1.
  { exists Theft. split; [reflexivity|].
    apply FirstMatch_here. now apply RegExp_test_iff. }
  apply RegExp_test_false_iff in E1.
  destruct (RegExp_test threatPattern _) eqn:E2.
  { exists Threat. split; [reflexivity|].
    apply FirstMatch_next; [exact E1|].
    apply FirstMatch_here. now apply RegExp_test_iff. }
  apply RegExp_test_false_iff in E2.
  destruct (RegExp_test defamationPattern _) eqn:E3.
  { exists Defamation. split; [reflexivity|].
    do 2 (apply FirstMatch_next; [assumption|]).
    apply FirstMatch_here. now apply RegExp_test_iff. }
  apply RegExp_test_false_iff in E3.
  destruct (RegExp_test injuryPattern _) eqn:E4.
  { exists Injury. split; [reflexivity|].
    do 3 (apply FirstMatch_next; [assumption|]).
    apply FirstMatch_here. now apply RegExp_test_iff. }
  apply RegExp_test_false_iff in E4.
  exists General. split; [reflexivity|].
  do 4 (apply FirstMatch_next; [assumption|]).
  apply FirstMatch_none.
Qed.

Lemma classifyCase_theft (s : string) :
  OccursAny theftPattern (toLowerCase s) -> classifyCase s = "theft".
Proof.
  intros H. apply RegExp_test_iff in H. unfold classifyCase. now rewrite H.
Qed.

Lemma allWhiteSpace_cons (c : ascii) (s : string) :
  allWhiteSpace (String c s) -> isWhiteSpace c = true /\ allWhiteSpace s.
Proof.
  intros H. split.
  - apply H. now left.
  - intros c' Hc'. apply H. now right.
Qed.

Lemma toLowerChar_white (c : ascii) :
  isWhiteSpace c = true -> toLowerChar c = c.
Proof.
  destruct c as [[] [] [] [] [] [] [] []]; vm_compute; congruence.
Qed.

Lemma toLowerCase_white (s : string) :
  allWhiteSpace s -> toLowerCase s = s.
Proof.
  induction s as [|c s IH]; [reflexivity|].
  intros H. apply allWhiteSpace_cons in H as [Hc Hs].
  cbn [toLowerCase]. now rewrite toLowerChar_white, IH.
Qed.

Lemma RegExp_test_white (re : RegExp) (s : string) :
  forallb startsBlack re = true -> allWhiteSpace s -> RegExp_test re s = false.
Proof.
  intros Hre.
  assert (Hhere : forall t, allWhiteSpace t -> matchHere re t = false).
  { intros t Ht. unfold matchHere.
    apply not_true_is_false. intros Hex.
    apply existsb_exists in Hex as [lit [Hin Hsw]].
    rewrite forallb_forall in Hre. specialize (Hre lit Hin).
    destruct lit as [|a lit]; [discriminate|].
    destruct t as [|b t]; [discriminate|].
    cbn [startsWith] in Hsw. apply andb_true_iff in Hsw as [Hab _].
    apply Ascii.eqb_eq in Hab. subst b.
    apply allWhiteSpace_cons in Ht as [Ha _].
    cbn [startsBlack] in Hre. rewrite Ha in Hre. discriminate. }
  induction s as [|c s IH]; intros Hs; cbn [RegExp_test].
  - now rewrite Hhere.
  - rewrite (Hhere _ Hs). apply allWhiteSpace_cons in Hs as [_ Hs]. now apply IH.
Qed.

Lemma classifyCase_white (s : string) :
  allWhiteSpace s -> classifyCase s = "general".
Proof.
  intros Hs. unfold classifyCase. rewrite (toLowerCase_white _ Hs).
  now rewrite !RegExp_test_white.
Qed.

(** ** The classifier *)

(** C1. For every summary, [classifyCase] answers with the category of the
    first rule, in the order Theft, Threat, Defamation, Injury, one of whose
    keywords occurs in the lower-cased summary, and with General when no rule
    has one; a summary with a theft keyword and an injury keyword is a theft;
    the empty summary and the summaries made of white space are general. *)
Theorem classifyCase_first_matching_rule :
  (forall (s : string) (c : CaseCategory),
      classifyCase s = categoryKey c <->
      FirstMatch spec_rules (toLowerCase s) c) /\
  (forall s : string,
      OccursAny theftPattern (toLowerCase s) ->
      OccursAny injuryPattern (toLowerCase s) ->
      classifyCase s = categoryKey Theft) /\
  classifyCase "" = categoryKey General /\
  classifyCase "   " = categoryKey General /\
  (forall s : string, allWhiteSpace s -> classifyCase s = categoryKey General).
Proof.
  split; [|split; [|split; [|split]]].
  - intros s c. destruct (classifyCase_FirstMatch s) as [c' [Hk Hf]]. split.
    + intros H. rewrite Hk in H. apply categoryKey_inj in H. now subst c'.
    + intros H. now rewrite (FirstMatch_functional _ _ _ _ H Hf).
  - intros s Ht _. now apply classifyCase_theft.
  - reflexivity.
  - reflexivity.
  - exact classifyCase_white.
Qed.

Lemma classifyCase_first_matching_rule_witness :
  classifyCase "He TOOK my phone and hit me" = categoryKey Theft.
Proof.
  apply (proj1 (proj2 classifyCase_first_matching_rule)).
  - exists "took". split; [cbn; tauto|].
    exists "he ", " my phone and hit me". reflexivity.
  - exists "hit". split; [cbn; tauto|].
    exists "he took my phone and ", " me". reflexivity.
Defined.

Lemma Occurs_lower (kw pre post : string) :
  toLowerCase kw = kw -> Occurs kw (toLowerCase (pre +:+ kw +:+ post)).
Proof.
  intros Hkw. exists (toLowerCase pre), (toLowerCase post).
  now rewrite !toLowerCase_append, Hkw.
Qed.

(** C10. The keywords are looked for anywhere in the lower-cased summary, not
    as whole words: whatever surrounds a theft keyword, in the summary or in
    its lower-cased text, the answer is theft, as for [mistake] and [intake];
    [oral] inside a word gives defamation when no theft and no threat keyword
    occurs, as for [moral]. *)
Theorem classifyCase_unanchored :
  (forall kw pre post : string,
      In kw theftPattern ->
      classifyCase (pre +:+ kw +:+ post) = categoryKey Theft) /\
  (forall s kw pre post : string,
      In kw theftPattern -> toLowerCase s = pre +:+ kw +:+ post ->
      classifyCase s = categoryKey Theft) /\
  classifyCase "mistake" = categoryKey Theft /\
  classifyCase "intake" = categoryKey Theft /\
  (forall s pre post : string,
      toLowerCase s = pre +:+ "oral" +:+ post ->
      ~ OccursAny theftPattern (toLowerCase s) ->
      ~ OccursAny threatPattern (toLowerCase s) ->
      classifyCase s = categoryKey Defamation) /\
  classifyCase "moral" = categoryKey Defamation.
Proof.
  split; [|split; [|split; [|split; [|split]]]].
  - intros kw pre post Hin. apply classifyCase_theft.
    exists kw. split; [exact Hin|]. apply Occurs_lower.
    cbn in Hin. repeat (destruct Hin as [<- | Hin]; [reflexivity|]).
    contradiction.
  - intros s kw pre post Hin Hs. apply classifyCase_theft.
    exists kw. split; [exact Hin|]. now exists pre, post.
  - reflexivity.
  - reflexivity.
  - intros s pre post Hs H1 H2.
    apply RegExp_test_false_iff in H1, H2.
    unfold classifyCase. rewrite H1, H2.
    assert (H3 : RegExp_test defamationPattern (toLowerCase s) = true).
    { apply RegExp_test_iff. exists "oral". split; [cbn; tauto|].
      now exists pre, post. }
    now rewrite H3.
  - reflexivity.
Qed.

Lemma classifyCase_unanchored_witness :
  classifyCase "By misTAKE" = categoryKey Theft /\
  classifyCase "The immoral man" = categoryKey Defamation.
Proof.
  split.
  - apply (proj1 (proj2 classifyCase_unanchored)) with
      (kw := "take") (pre := "by mis") (post := "").
    + cbn; tauto.
    + reflexivity.
  - apply (proj1 (proj2 (proj2 (proj2 (proj2 classifyCase_unanchored))))) with
      (pre := "the imm") (post := " man").
    + reflexivity.
    + apply RegExp_test_false_iff. reflexivity.
    + apply RegExp_test_false_iff. reflexivity.
Defined.

(** ** The knowledge base *)

Lemma LEGAL_DATA_keys :
  LEGAL_DATA_entries.*1 = map categoryKey allCategories.
Proof. reflexivity. Qed.

Lemma categoryKeys_NoDup : NoDup (map categoryKey allCategories).
Proof.
  cbn.
  repeat (apply NoDup_cons_2;
          [rewrite ?not_elem_of_cons; repeat split;
           (discriminate || apply not_elem_of_nil)|]).
  apply NoDup_nil_2.
Qed.

(** The names of the own properties of the literal are the five category
    keys. *)
Lemma LEGAL_DATA_own_keys (key : string) :
  In key (LEGAL_DATA_entries.*1) <-> exists c, key = categoryKey c.
Proof.
  rewrite LEGAL_DATA_keys, in_map_iff. split.
  - intros [c [<- _]]. now exists c.
  - intros [c ->]. exists c. split; [reflexivity|]. destruct c; cbn; tauto.
Qed.

Lemma LEGAL_DATA_category (c : CaseCategory) :
  is_Some (LEGAL_DATA !! categoryKey c).
Proof. destruct c; vm_compute; eauto. Qed.

(** C2. Reading the table is total on the categories: each of the five keys
    has a record; the own properties of the literal are named by these five
    keys and no other, each key once, five entries in all; the records of
    Theft, Threat, Defamation and Injury list at least one violation, and the
    record of General has no jurisprudence and no counter-charge.  The key
    [classifyCase] returns always has a record. *)
Theorem LEGAL_DATA_total :
  (forall c : CaseCategory,
      exists r, lookup_legal (categoryKey c) = Some r /\
                (c <> General -> violations r <> []) /\
                (c = General -> jurisprudence r = [] /\ counters r = [])) /\
  (forall key : string,
      In key (LEGAL_DATA_entries.*1) <-> exists c, key = categoryKey c) /\
  NoDup (LEGAL_DATA_entries.*1) /\
  length LEGAL_DATA_entries = 5%nat /\
  size LEGAL_DATA = 5%nat /\
  (forall s : string, is_Some (lookup_legal (classifyCase s))).
Proof.
  split; [|split; [|split; [|split; [|split]]]].
  - intros c. destruct c; eexists; (split; [vm_compute; reflexivity|]);
      cbn; split; intros H; (congruence || (split; reflexivity)).
  - exact LEGAL_DATA_own_keys.
  - rewrite LEGAL_DATA_keys. exact categoryKeys_NoDup.
  - reflexivity.
  - vm_compute. reflexivity.
  - intros s. destruct (classifyCase_FirstMatch s) as [c [Hc _]].
    rewrite Hc. apply LEGAL_DATA_category.
Qed.

Lemma LEGAL_DATA_total_witness :
  exists r, lookup_legal "theft" = Some r /\ violations r <> [].
Proof.
  destruct (proj1 LEGAL_DATA_total Theft) as [r [Hr [Hv _]]].
  exists r. split; [exact Hr | apply Hv; discriminate].
Defined.

(** ** The mediation strategy *)

Section StrategyFacts.
Context {rt : Runtime}.

Lemma objectives_fixed (now : Z) (classification : string) :
  objectives (generateMediationStrategy now classification) =
  [ "Clarify all facts and ensure both parties are fully heard";
    "Encourage parties to agree on appropriate restitution or compensation";
    "Promote respect and restore harmony within the barangay community";
    "Prevent escalation to formal court proceedings when possible";
    "Ensure compliance with applicable laws and ordinances" ].
Proof.
  unfold generateMediationStrategy.
  repeat (destruct (String.eqb classification _)); reflexivity.
Qed.

End StrategyFacts.

(** C5. Whatever the classification (the key of a category or any other
    text), the clock and the runtime, the objectives are five, and they are
    the same list for any two classifications. *)
Theorem objectives_five_and_fixed :
  forall (rt : Runtime) (now1 now2 : Z) (c1 c2 : CaseCategory),
    length (objectives (generateMediationStrategy now1 (categoryKey c1))) = 5%nat /\
    objectives (generateMediationStrategy now1 (categoryKey c1)) =
    objectives (generateMediationStrategy now2 (categoryKey c2)).
Proof.
  intros rt now1 now2 c1 c2. rewrite !objectives_fixed. split; reflexivity.
Qed.

(** The strategy reads the clock and formats the date it read, and uses
    neither: the result is the same at every clock and on every runtime. *)
Lemma generateMediationStrategy_clock_free
    (rt1 rt2 : Runtime) (now1 now2 : Z) (classification : string) :
  generateMediationStrategy (rt := rt1) now1 classification =
  generateMediationStrategy (rt := rt2) now2 classification.
Proof. reflexivity. Qed.

(** ** The questions *)

Section QuestionFacts.
Context {rt : Runtime}.

Lemma generateQuestions_eq (c r loc dt : string) :
  generateQuestions c r loc dt =
  {| openEnded :=
       [ "Can you describe in your own words what happened at " +:+ locText loc
           +:+ " on " +:+ dtText dt +:+ "?";
         "What events led up to the incident and how did you react?";
         "How has this incident affected you personally and your daily life?" ];
     clarifying :=
       [ "What time did the incident occur and who else was present?";
         "Where exactly at " +:+ locText loc +:+ " did the interaction take place?";
         "Can you specify any statements or actions you find particularly significant?" ];
     reflective :=
       [ "How do you think the other party felt during the incident?";
         "Looking back, is there anything you wish had been done differently?";
         "How has this dispute impacted your relationship with the other party?" ];
     exploratory :=
       [ "What do you consider a fair and just resolution to this dispute?";
         "Are there any compromises you are willing to make to settle this matter?";
         "What would rebuilding trust look like for you?" ];
     conscience :=
       [ "If the roles were reversed, how would you want to be treated?";
         "What message do you want to send to the community about resolving disputes?";
         "How would an amicable settlement benefit both you and the other party?" ] |}.
Proof. reflexivity. Qed.

End QuestionFacts.

(** C6. Each of the five lists has three questions, and the question set is
    the same for the two roles and for the five categories (indeed for any
    role and classification text): it depends on the location and the
    dateTime only. *)
Theorem generateQuestions_three_each_role_category_free :
  forall (rt : Runtime) (c1 c2 : CaseCategory) (r1 r2 loc dt : string),
    let q := generateQuestions (categoryKey c1) r1 loc dt in
    length (openEnded q) = 3%nat /\
    length (clarifying q) = 3%nat /\
    length (reflective q) = 3%nat /\
    length (exploratory q) = 3%nat /\
    length (conscience q) = 3%nat /\
    generateQuestions (categoryKey c1) "complainant" loc dt =
    generateQuestions (categoryKey c2) "respondent" loc dt /\
    generateQuestions (categoryKey c1) r1 loc dt =
    generateQuestions (categoryKey c2) r2 loc dt.
Proof.
  intros rt c1 c2 r1 r2 loc dt q. subst q.
  rewrite !generateQuestions_eq. repeat split; reflexivity.
Qed.

(** C3, as the code has it.  The location goes into the first open-ended
    question and into the second clarifying question, the formatted dateTime
    into the first open-ended question only; the other thirteen questions are
    the same whatever the category, role, location and dateTime, and no
    question but the first open-ended one changes with the dateTime. *)
Theorem generateQuestions_interpolation :
  forall (rt : Runtime) (c r loc dt : string),
    let q := generateQuestions c r loc dt in
    question 0 (openEnded q) =
      "Can you describe in your own words what happened at " +:+ locText loc
        +:+ " on " +:+ dtText dt +:+ "?" /\
    question 1 (clarifying q) =
      "Where exactly at " +:+ locText loc +:+ " did the interaction take place?" /\
    (forall c' r' loc' dt' : string,
        fixedQuestions q = fixedQuestions (generateQuestions c' r' loc' dt')) /\
    (forall c' r' dt' : string,
        afterFirst q = afterFirst (generateQuestions c' r' loc dt')).
Proof.
  intros rt c r loc dt q. subst q.
  split; [|split; [|split]]; intros; rewrite !generateQuestions_eq;
    reflexivity.
Qed.

(** C3, as the claim has it, fails: with the same category, role and
    dateTime, two locations give two different second clarifying questions,
    so the questions after the first open-ended one do depend on the
    location. *)
Lemma generateQuestions_location_elsewhere :
  question 1 (clarifying (generateQuestions (rt := Host.runtime)
     "theft" "complainant" "Purok 3" "2024-05-01T20:00"))
    = "Where exactly at Purok 3 did the interaction take place?" /\
  question 1 (clarifying (generateQuestions (rt := Host.runtime)
     "theft" "complainant" "Purok 5" "2024-05-01T20:00"))
    = "Where exactly at Purok 5 did the interaction take place?" /\
  afterFirst (generateQuestions (rt := Host.runtime)
     "theft" "complainant" "Purok 3" "2024-05-01T20:00") <>
  afterFirst (generateQuestions (rt := Host.runtime)
     "theft" "complainant" "Purok 5" "2024-05-01T20:00").
Proof.
  split; [reflexivity|]. split; [reflexivity|].
  vm_compute. discriminate.
Qed.

(** C7, as the code has it.  An empty location is replaced by the text
    [the location] in the two templates that use it; an empty dateTime puts
    the empty text in the date position of the first open-ended question; a
    dateTime that is not empty and that the runtime cannot parse puts the
    rendering of the invalid date there, the text [Invalid Date]. *)
Theorem generateQuestions_missing_values :
  forall (rt : Runtime) (c r loc dt : string),
    question 0 (openEnded (generateQuestions c r "" dt)) =
      "Can you describe in your own words what happened at the location on "
        +:+ dtText dt +:+ "?" /\
    question 1 (clarifying (generateQuestions c r "" dt)) =
      "Where exactly at the location did the interaction take place?" /\
    question 0 (openEnded (generateQuestions c r loc "")) =
      "Can you describe in your own words what happened at " +:+ locText loc
        +:+ " on ?" /\
    (dt <> "" -> Date_parse dt = None ->
     question 0 (openEnded (generateQuestions c r loc dt)) =
       "Can you describe in your own words what happened at " +:+ locText loc
         +:+ " on Invalid Date?").
Proof.
  intros rt c r loc dt. rewrite !generateQuestions_eq.
  split; [reflexivity|]. split; [reflexivity|]. split; [reflexivity|].
  intros Hne Hnan. unfold question, dtText. cbn [openEnded nth].
  destruct dt as [|a dt]; [congruence|]. cbn [truthy].
  rewrite Hnan. reflexivity.
Qed.

Lemma generateQuestions_missing_values_witness :
  question 0 (openEnded (generateQuestions (rt := Host.runtime)
     "general" "respondent" "" "unknown")) =
  "Can you describe in your own words what happened at the location on Invalid Date?".
Proof.
  apply (proj2 (proj2 (proj2 (generateQuestions_missing_values
           Host.runtime "general" "respondent" "" "unknown")))).
  - discriminate.
  - reflexivity.
Defined.

(** C7, as the claim has it, fails for the unparseable dateTime: on the
    reference runtime the text [unknown] is not a date, and the date position
    of the first open-ended question holds [Invalid Date], not the empty
    text. *)
Lemma generateQuestions_unparseable_not_empty :
  Date_parse (Runtime := Host.runtime) "unknown" = None /\
  question 0 (openEnded (generateQuestions (rt := Host.runtime)
     "general" "complainant" "Purok 3" "unknown")) =
  "Can you describe in your own words what happened at Purok 3 on Invalid Date?" /\
  question 0 (openEnded (generateQuestions (rt := Host.runtime)
     "general" "complainant" "Purok 3" "unknown")) <>
  "Can you describe in your own words what happened at Purok 3 on ?".
Proof.
  split; [reflexivity|]. split; [reflexivity|].
  vm_compute. discriminate.
Qed.

(** ** The whole run *)

(** C4. Two runs on the same form, on the same runtime, go through the same
    steps with the same values and hand the same record to the renderer,
    whatever the clock shows at each run; the strategy of a classification is
    one fixed value, the same at every clock and on every runtime. *)
Theorem generateReport_deterministic :
  forall (rt : Runtime) (now1 now2 : Z) (f : Form),
    generateReport now1 f = generateReport now2 f /\
    rendered (generateReport now1 f) = rendered (generateReport now2 f) /\
    (forall (rt' : Runtime) (classification : string),
        generateMediationStrategy (rt := rt) now1 classification =
        generateMediationStrategy (rt := rt') now2 classification).
Proof.
  intros rt now1 now2 f.
  assert (H : generateReport now1 f = generateReport now2 f).
  { unfold generateReport. destruct (validateForm f) as [marks valid].
    destruct valid; cbn [negb]; [|reflexivity].
    now rewrite (generateMediationStrategy_clock_free rt rt now1 now2). }
  split; [exact H|]. split; [now rewrite H|].
  intros rt' classification. apply generateMediationStrategy_clock_free.
Qed.

(** C8. A form with the summary, location and dateTime of the scenario is
    classified as theft; the record handed to the renderer has the nature
    [Theft / Qualified Theft], lists the return of the property among the
    issues, and its first open-ended question for the complainant is the
    template filled with the location and with the runtime's rendering of
    the dateTime. *)
Theorem carabao_scenario :
  forall (rt : Runtime) (now : Z) (f : Form),
    el_incidentSummary f =
      "Someone took my neighbor's carabao while I was sleeping" ->
    el_incidentLocation f = "Purok 3, San Pedro City" ->
    el_incidentDateTime f = "2024-05-01T20:00" ->
    classifyCase (el_incidentSummary f) = categoryKey Theft /\
    exists (r : ReportData) (a : LegalRecord),
      rendered (generateReport now f) = Some r /\
      analysis r = Some a /\
      nature a = "Theft / Qualified Theft" /\
      In "Return of the allegedly stolen property or restitution of its value"
         (issues (mediation r)) /\
      question 0 (openEnded (for_complainant (questions r))) =
        "Can you describe in your own words what happened at "
          +:+ "Purok 3, San Pedro City" +:+ " on "
          +:+ toLocaleString (Date_parse "2024-05-01T20:00") +:+ "?" /\
      Occurs "Purok 3, San Pedro City"
        (question 0 (openEnded (for_complainant (questions r)))) /\
      Occurs (toLocaleString (Date_parse "2024-05-01T20:00"))
        (question 0 (openEnded (for_complainant (questions r)))).
Proof.
  intros rt now f Hs Hl Hd.
  assert (Hc : classifyCase
                 "Someone took my neighbor's carabao while I was sleeping"
               = "theft") by (vm_compute; reflexivity).
  split; [now rewrite Hs|].
  assert (Hv : validateForm f =
               ({| summaryInvalid := false; locationInvalid := false;
                   dateInvalid := false |}, true)).
  { unfold validateForm. rewrite Hs, Hl, Hd. vm_compute. reflexivity. }
  assert (Hi : incident (gatherData f) =
               {| summary :=
                    "Someone took my neighbor's carabao while I was sleeping";
                  location := "Purok 3, San Pedro City";
                  dateTime := "2024-05-01T20:00" |}).
  { unfold gatherData. cbn [incident]. rewrite Hs, Hl, Hd.
    vm_compute. reflexivity. }
  exists {| formData := gatherData f;
            analysis := lookup_legal "theft";
            mediation := generateMediationStrategy now "theft";
            questions :=
              {| for_complainant :=
                   generateQuestions "theft" "complainant"
                     "Purok 3, San Pedro City" "2024-05-01T20:00";
                 for_respondent :=
                   generateQuestions "theft" "respondent"
                     "Purok 3, San Pedro City" "2024-05-01T20:00" |} |}.
  exists LEGAL_DATA_theft.
  split.
  { unfold generateReport. rewrite Hv. cbn [negb]. rewrite Hi.
    cbn [summary location dateTime]. rewrite Hc. reflexivity. }
  cbn [analysis mediation questions for_complainant].
  split; [vm_compute; reflexivity|].
  split; [reflexivity|].
  split; [vm_compute; tauto|].
  rewrite generateQuestions_eq. cbn [openEnded question nth].
  split; [reflexivity|]. split.
  - exists "Can you describe in your own words what happened at ".
    exists (" on " +:+ toLocaleString (Date_parse "2024-05-01T20:00") +:+ "?").
    reflexivity.
  - exists "Can you describe in your own words what happened at Purok 3, San Pedro City on ".
    exists "?". reflexivity.
Qed.

Lemma carabao_scenario_witness :
  exists r : ReportData,
    rendered (generateReport (rt := Host.runtime) 1714650000000 carabaoForm)
      = Some r /\
    question 0 (openEnded (for_complainant (questions r))) =
    "Can you describe in your own words what happened at Purok 3, San Pedro City on 5/1/2024, 8:00:00 PM?".
Proof.
  destruct (carabao_scenario Host.runtime 1714650000000 carabaoForm
              eq_refl eq_refl eq_refl)
    as [_ [r [a (Hr & _ & _ & _ & Hq & _)]]].
  exists r. split; [exact Hr|]. rewrite Hq. vm_compute. reflexivity.
Defined.

Lemma validateForm_short (f : Form) :
  (String.length (trim (el_incidentSummary f)) < 30)%nat ->
  exists marks, validateForm f = (marks, false) /\ summaryInvalid marks = true.
Proof.
  intros Hlen. apply Nat.ltb_lt in Hlen. unfold validateForm.
  rewrite Hlen, orb_true_r.
  destruct (negb (truthy (el_incidentLocation f)) || _);
    destruct (negb (truthy (el_incidentDateTime f)));
    eexists; split; reflexivity.
Qed.

(** C9. When the trimmed summary has fewer than 30 characters, validation
    fails and marks the summary; the run is the validation followed by the
    scroll to the top and nothing else: no classification, lookup, strategy,
    question or rendering step, and no record handed to the renderer. *)
Theorem short_summary_stops :
  forall (rt : Runtime) (now : Z) (f : Form),
    (String.length (trim (el_incidentSummary f)) < 30)%nat ->
    snd (validateForm f) = false /\
    summaryInvalid (fst (validateForm f)) = true /\
    generateReport now f =
      [Validated (fst (validateForm f)) false; ScrolledToTop] /\
    existsb isCoreStep (generateReport now f) = false /\
    rendered (generateReport now f) = None.
Proof.
  intros rt now f Hlen.
  destruct (validateForm_short f Hlen) as [marks [Hv Hm]].
  unfold generateReport. rewrite Hv. cbn [fst snd negb].
  repeat split; (reflexivity || exact Hm).
Qed.

Lemma short_summary_stops_witness :
  String.length (trim (el_incidentSummary shortForm)) = 29%nat /\
  generateReport (rt := Host.runtime) 1714650000000 shortForm =
    [Validated {| summaryInvalid := true; locationInvalid := false;
                  dateInvalid := false |} false;
     ScrolledToTop] /\
  rendered (generateReport (rt := Host.runtime) 1714650000000 shortForm) = None.
Proof.
  assert (Hlen : (String.length (trim (el_incidentSummary shortForm)) < 30)%nat)
    by (vm_compute; lia).
  destruct (short_summary_stops Host.runtime 1714650000000 shortForm Hlen)
    as (_ & _ & Hrun & _ & Hnone).
  split; [reflexivity|]. split; [rewrite Hrun; reflexivity | exact Hnone].
Defined.

(** * Further properties of the report pipeline *)

(** ** Validation *)

Lemma truthy_false (s : string) : truthy s = false <-> s = "".
Proof. destruct s; split; (reflexivity || discriminate). Qed.

Lemma truthy_true (s : string) : truthy s = true <-> s <> "".
Proof.
  destruct s; cbn; split; intros H; try reflexivity; try discriminate.
  now contradiction H.
Qed.

Lemma length_zero (s : string) : String.length s = 0%nat <-> s = "".
Proof. destruct s; split; (reflexivity || discriminate). Qed.

(** The result of [validateForm], test by test. *)
Lemma validateForm_eq (f : Form) :
  validateForm f =
  ({| summaryInvalid := (String.length (trim (el_incidentSummary f)) <? 30)%nat;
      locationInvalid := (String.length (trim (el_incidentLocation f)) =? 0)%nat;
      dateInvalid := negb (truthy (el_incidentDateTime f)) |},
   negb (String.length (trim (el_incidentSummary f)) <? 30)%nat &&
   negb (String.length (trim (el_incidentLocation f)) =? 0)%nat &&
   truthy (el_incidentDateTime f)).
Proof.
  assert (Hs : negb (truthy (el_incidentSummary f))
               || (String.length (trim (el_incidentSummary f)) <? 30)%nat
               = (String.length (trim (el_incidentSummary f)) <? 30)%nat).
  { destruct (el_incidentSummary f); reflexivity. }
  assert (Hl : negb (truthy (el_incidentLocation f))
               || (String.length (trim (el_incidentLocation f)) =? 0)%nat
               = (String.length (trim (el_incidentLocation f)) =? 0)%nat).
  { destruct (el_incidentLocation f); reflexivity. }
  unfold validateForm. rewrite Hs, Hl.
  destruct (String.length (trim (el_incidentSummary f)) <? 30)%nat,
           (String.length (trim (el_incidentLocation f)) =? 0)%nat,
           (truthy (el_incidentDateTime f)); reflexivity.
Qed.

Lemma validateForm_valid_iff (f : Form) :
  snd (validateForm f) = true <->
  (30 <= String.length (trim (el_incidentSummary f)))%nat /\
  trim (el_incidentLocation f) <> "" /\
  el_incidentDateTime f <> "".
Proof.
  rewrite validateForm_eq. cbn [snd].
  rewrite !andb_true_iff, !negb_true_iff, Nat.ltb_ge, Nat.eqb_neq,
    length_zero, truthy_true.
  tauto.
Qed.

(** X1. [validateForm] marks each of the three controls on its own test, in
    one pass and without stopping at the first failure: the summary when its
    trimmed text has fewer than 30 characters, the location when its trimmed
    text is empty, the date when its value is empty; the form is valid exactly
    when no control is marked.  The emptiness tests on the raw summary and
    location add nothing to the tests on the trimmed text, and the date is
    accepted whatever its text as long as there is one. *)
Theorem validateForm_marks :
  forall f : Form,
    summaryInvalid (fst (validateForm f)) =
      (String.length (trim (el_incidentSummary f)) <? 30)%nat /\
    locationInvalid (fst (validateForm f)) =
      (String.length (trim (el_incidentLocation f)) =? 0)%nat /\
    dateInvalid (fst (validateForm f)) = negb (truthy (el_incidentDateTime f)) /\
    snd (validateForm f) =
      negb (summaryInvalid (fst (validateForm f))) &&
      negb (locationInvalid (fst (validateForm f))) &&
      negb (dateInvalid (fst (validateForm f))) /\
    (snd (validateForm f) = true <->
     (30 <= String.length (trim (el_incidentSummary f)))%nat /\
     trim (el_incidentLocation f) <> "" /\
     el_incidentDateTime f <> "").
Proof.
  intros f. split; [|split; [|split; [|split]]].
  - now rewrite validateForm_eq.
  - now rewrite validateForm_eq.
  - now rewrite validateForm_eq.
  - rewrite validateForm_eq. cbn [fst snd summaryInvalid locationInvalid dateInvalid].
    now rewrite negb_involutive.
  - apply validateForm_valid_iff.
Qed.

Lemma validateForm_marks_witness :
  snd (validateForm carabaoForm) = true.
Proof.
  apply (proj2 (proj2 (proj2 (proj2 (validateForm_marks carabaoForm))))).
  repeat split; vm_compute; (lia || discriminate).
Defined.

(** ** The run *)

Section RunFacts.
Context {rt : Runtime}.

Lemma generateReport_valid (now : Z) (f : Form) :
  snd (validateForm f) = true ->
  generateReport now f =
    let d := gatherData f in
    let c := classifyCase (summary (incident d)) in
    let q := {| for_complainant :=
                  generateQuestions c "complainant" (location (incident d))
                    (dateTime (incident d));
                for_respondent :=
                  generateQuestions c "respondent" (location (incident d))
                    (dateTime (incident d)) |} in
    let r := {| formData := d; analysis := lookup_legal c;
                mediation := generateMediationStrategy now c;
                questions := q |} in
    [Validated (fst (validateForm f)) true; Gathered d; Classified c;
     Analyzed (lookup_legal c); Strategized (generateMediationStrategy now c);
     Questioned q; Rendered r; ReportShown; ScrolledToReport].
Proof.
  intros Hv. unfold generateReport.
  destruct (validateForm f) as [marks valid]. cbn [fst snd] in *. subst valid.
  reflexivity.
Qed.

Lemma generateReport_invalid (now : Z) (f : Form) :
  snd (validateForm f) = false ->
  generateReport now f = [Validated (fst (validateForm f)) false; ScrolledToTop].
Proof.
  intros Hv. unfold generateReport.
  destruct (validateForm f) as [marks valid]. cbn [fst snd] in *. subst valid.
  reflexivity.
Qed.

End RunFacts.

(** X2. A run hands a record to the renderer exactly when validation passes;
    it then shows the report section and goes through all nine steps, and
    otherwise it only scrolls to the top.  Nothing but the three validated
    controls decides it: the complainant and the respondents may all be
    blank. *)
Theorem generateReport_renders_iff_valid :
  forall (rt : Runtime) (now : Z) (f : Form),
    (is_Some (rendered (generateReport now f)) <-> snd (validateForm f) = true) /\
    (In ReportShown (generateReport now f) <-> snd (validateForm f) = true) /\
    (In ScrolledToTop (generateReport now f) <-> snd (validateForm f) = false) /\
    length (generateReport now f) = (if snd (validateForm f) then 9 else 2)%nat.
Proof.
  intros rt now f. destruct (snd (validateForm f)) eqn:Hv.
  - rewrite (generateReport_valid now f Hv). cbn.
    split; [split; [reflexivity | eauto]|].
    split; [split; [reflexivity | tauto]|].
    split; [|reflexivity].
    split; [|discriminate]. intros H.
    repeat (destruct H as [H | H]; [discriminate H|]). contradiction.
  - rewrite (generateReport_invalid now f Hv). cbn.
    split; [split; [intros [r Hr]; discriminate Hr | discriminate]|].
    split; [|split; [split; [reflexivity | tauto] | reflexivity]].
    split; [|discriminate]. intros H.
    repeat (destruct H as [H | H]; [discriminate H|]). contradiction.
Qed.

(** X3. The record handed to the renderer is coherent with itself: its
    analysis, its strategy and its two question sets are those of the
    classification of its own summary; the analysis is a record of the
    table, never a missing entry; the incident in it passed validation in
    its trimmed form (30 characters or more, a location, a date text that
    is not empty); so neither guard of [generateQuestions] is taken: the
    first question quotes the location itself, not the placeholder, and its
    date position holds what the runtime gives for the date text, which is
    [Invalid Date] when the text is not a date the runtime can parse, since
    validation accepts any date text that is not empty. *)
Theorem rendered_record_coherent :
  forall (rt : Runtime) (now : Z) (f : Form) (r : ReportData),
    rendered (generateReport now f) = Some r ->
    let i := incident (formData r) in
    let c := classifyCase (summary i) in
    formData r = gatherData f /\
    analysis r = lookup_legal c /\
    is_Some (analysis r) /\
    mediation r = generateMediationStrategy now c /\
    for_complainant (questions r) =
      generateQuestions c "complainant" (location i) (dateTime i) /\
    for_respondent (questions r) =
      generateQuestions c "respondent" (location i) (dateTime i) /\
    (30 <= String.length (summary i))%nat /\
    location i <> "" /\ dateTime i <> "" /\
    question 0 (openEnded (for_complainant (questions r))) =
      "Can you describe in your own words what happened at " +:+ location i
        +:+ " on " +:+ toLocaleString (Date_parse (dateTime i)) +:+ "?" /\
    (Date_parse (dateTime i) = None ->
     question 0 (openEnded (for_complainant (questions r))) =
       "Can you describe in your own words what happened at " +:+ location i
         +:+ " on Invalid Date?").
Proof.
  intros rt now f r Hr.
  assert (Hv : snd (validateForm f) = true).
  { destruct (snd (validateForm f)) eqn:Hv; [reflexivity|].
    rewrite (generateReport_invalid now f Hv) in Hr. discriminate Hr. }
  rewrite (generateReport_valid now f Hv) in Hr. cbv zeta in Hr.
  cbn [rendered] in Hr. injection Hr as <-. cbv zeta. cbn [formData analysis mediation questions
                           for_complainant for_respondent].
  apply validateForm_valid_iff in Hv as (H30 & Hloc & Hdt).
  assert (Hi : incident (gatherData f) =
               {| summary := trim (el_incidentSummary f);
                  location := trim (el_incidentLocation f);
                  dateTime := el_incidentDateTime f |}) by reflexivity.
  rewrite Hi. cbn [summary location dateTime].
  repeat split; try assumption.
  - destruct (classifyCase_FirstMatch (trim (el_incidentSummary f)))
      as [c [Hc _]].
    rewrite Hc. apply LEGAL_DATA_category.
  - rewrite generateQuestions_eq. unfold question, locText, dtText.
    cbn [openEnded nth].
    apply truthy_true in Hloc, Hdt. now rewrite Hloc, Hdt.
  - intros Hnan. rewrite generateQuestions_eq. unfold question, locText, dtText.
    cbn [openEnded nth].
    apply truthy_true in Hloc, Hdt. now rewrite Hloc, Hdt, Hnan.
Qed.

Lemma rendered_record_coherent_witness :
  exists r : ReportData,
    rendered (generateReport (rt := Host.runtime) 0 carabaoForm) = Some r /\
    analysis r = Some LEGAL_DATA_theft /\
    for_respondent (questions r) = for_complainant (questions r).
Proof.
  assert (Hv : snd (validateForm carabaoForm) = true) by reflexivity.
  pose proof (generateReport_valid (rt := Host.runtime) 0 carabaoForm Hv) as Hrun.
  set (r := {| formData := gatherData carabaoForm;
               analysis := lookup_legal "theft";
               mediation := generateMediationStrategy (rt := Host.runtime) 0 "theft";
               questions :=
                 {| for_complainant :=
                      generateQuestions (rt := Host.runtime) "theft" "complainant"
                        "Purok 3, San Pedro City" "2024-05-01T20:00";
                    for_respondent :=
                      generateQuestions (rt := Host.runtime) "theft" "respondent"
                        "Purok 3, San Pedro City" "2024-05-01T20:00" |} |}).
  assert (Hr : rendered (generateReport (rt := Host.runtime) 0 carabaoForm) = Some r).
  { rewrite Hrun. vm_compute. reflexivity. }
  exists r. split; [exact Hr|].
  destruct (rendered_record_coherent Host.runtime 0 carabaoForm r Hr)
    as (_ & Ha & _ & _ & Hc & Hq & _).
  split; [rewrite Ha; vm_compute; reflexivity|].
  rewrite Hc, Hq. reflexivity.
Defined.

(** ** Gathering *)

Lemma trimStart_first (s : string) (c : ascii) :
  firstChar (trimStart s) = Some c -> isWhiteSpace c = false.
Proof.
  induction s as [|a s IH]; cbn [trimStart]; [discriminate|].
  destruct (isWhiteSpace a) eqn:Ea; [exact IH|].
  cbn. intros [= <-]. exact Ea.
Qed.

Lemma trimEnd_first (s : string) (c : ascii) :
  firstChar (trimEnd s) = Some c -> firstChar s = Some c.
Proof.
  destruct s as [|a s]; cbn [trimEnd]; [discriminate|].
  destruct (trimEnd s); [destruct (isWhiteSpace a)|]; cbn; congruence.
Qed.

Lemma lastChar_None (s : string) : lastChar s = None -> s = "".
Proof.
  destruct s as [|a s]; [reflexivity|]. cbn. destruct (lastChar s); discriminate.
Qed.

Lemma trimEnd_last (s : string) (c : ascii) :
  lastChar (trimEnd s) = Some c -> isWhiteSpace c = false.
Proof.
  induction s as [|a s IH]; cbn [trimEnd]; [discriminate|].
  destruct (trimEnd s) as [|b t] eqn:Et.
  - destruct (isWhiteSpace a) eqn:Ea; cbn; [discriminate|].
    intros [= <-]. exact Ea.
  - change (lastChar (String a (String b t)))
      with (match lastChar (String b t) with
            | None => Some a | Some d => Some d end).
    destruct (lastChar (String b t)) as [d|] eqn:El.
    + intros [= <-]. now apply IH.
    + apply lastChar_None in El. discriminate El.
Qed.

Lemma trim_trimmed (s : string) : trimmed (trim s).
Proof.
  split; intros c Hc.
  - apply trimEnd_first in Hc. now apply trimStart_first in Hc.
  - now apply trimEnd_last in Hc.
Qed.

Lemma gatherRespondents_fold (divs acc : list PartyInfo) :
  fold_left (fun acc div => gatherRespondent div acc) divs acc =
  acc ++ List.filter anyFilled (map trimParty divs).
Proof.
  revert acc. induction divs as [|d divs IH]; intros acc; cbn [fold_left map List.filter].
  - now rewrite app_nil_r.
  - rewrite IH. unfold gatherRespondent, anyFilled, trimParty, push.
    cbn [name phone email address].
    destruct (truthy (trim (name d)) || truthy (trim (phone d))
              || truthy (trim (email d)) || truthy (trim (address d)));
      [now rewrite <- app_assoc | reflexivity].
Qed.

Lemma respondents_filter (f : Form) :
  respondents (gatherData f) =
  List.filter anyFilled (map trimParty (el_respondents f)).
Proof.
  unfold gatherData. cbn [respondents]. now rewrite gatherRespondents_fold.
Qed.

(** X4. The respondents of the gathered data are the respondent blocks of the
    page, trimmed, in document order, without those whose four trimmed values
    are all empty: a block of blanks is dropped, a block with any one value is
    kept, so every respondent of the report has something filled in and there
    are no more of them than blocks. *)
Theorem gatherData_respondents :
  forall f : Form,
    respondents (gatherData f) =
      List.filter anyFilled (map trimParty (el_respondents f)) /\
    Forall (fun p => anyFilled p = true) (respondents (gatherData f)) /\
    (length (respondents (gatherData f)) <= length (el_respondents f))%nat.
Proof.
  intros f.
  rewrite respondents_filter. split; [reflexivity|]. split.
  - apply List.Forall_forall. intros p Hp. now apply filter_In in Hp.
  - etransitivity; [apply filter_length_le|]. now rewrite length_map.
Qed.

(** X5. Every text [gatherData] trims comes out with no white space at
    either end: the case id, the four values of the complainant and of each
    respondent, the summary and the location.  The two dates are passed on as
    the controls hold them. *)
Theorem gatherData_trimmed :
  forall f : Form,
    let d := gatherData f in
    trimmed (caseId d) /\
    partyTrimmed (complainant d) /\
    Forall partyTrimmed (respondents d) /\
    trimmed (summary (incident d)) /\
    trimmed (location (incident d)) /\
    dateReceived d = el_dateReceived f /\
    dateTime (incident d) = el_incidentDateTime f.
Proof.
  intros f d.
  assert (Hp : forall p, partyTrimmed (trimParty p)).
  { intros p. repeat split; apply trim_trimmed. }
  split; [apply trim_trimmed|].
  split; [exact (Hp {| name := el_complainantName f;
                       phone := el_complainantPhone f;
                       email := el_complainantEmail f;
                       address := el_complainantAddress f |})|].
  split.
  - subst d. rewrite respondents_filter.
    apply List.Forall_forall. intros p Hin. apply filter_In in Hin as [Hin _].
    apply in_map_iff in Hin as [p0 [<- _]]. apply Hp.
  - repeat split; apply trim_trimmed.
Qed.

(** ** More on the classifier *)

Lemma allWhiteSpace_nil : allWhiteSpace "".
Proof. intros c []. Qed.

Lemma allWhiteSpace_cons_iff (a : ascii) (s : string) :
  allWhiteSpace (String a s) <-> isWhiteSpace a = true /\ allWhiteSpace s.
Proof.
  split; [apply allWhiteSpace_cons|].
  intros [Ha Hs] c [<- | Hc]; [exact Ha | now apply Hs].
Qed.

Lemma allWhiteSpace_append (s t : string) :
  allWhiteSpace (s +:+ t) <-> allWhiteSpace s /\ allWhiteSpace t.
Proof.
  induction s as [|a s IH].
  - rewrite append_nil_l. split; [intros H; split; [apply allWhiteSpace_nil | exact H] | tauto].
  - rewrite append_cons, !allWhiteSpace_cons_iff, IH. tauto.
Qed.

Lemma trimStart_split (s : string) :
  exists w, s = w +:+ trimStart s /\ allWhiteSpace w.
Proof.
  induction s as [|a s [w [Hs Hw]]]; cbn [trimStart].
  - exists "". split; [reflexivity | apply allWhiteSpace_nil].
  - destruct (isWhiteSpace a) eqn:Ea.
    + exists (String a w). split; [rewrite append_cons; now f_equal|].
      now apply allWhiteSpace_cons_iff.
    + exists "". split; [reflexivity | apply allWhiteSpace_nil].
Qed.

Lemma trimEnd_split (s : string) :
  exists w, s = trimEnd s +:+ w /\ allWhiteSpace w.
Proof.
  induction s as [|a s [w [Hs Hw]]]; cbn [trimEnd].
  - exists "". split; [reflexivity | apply allWhiteSpace_nil].
  - destruct (trimEnd s) as [|b t] eqn:Et.
    + rewrite append_nil_l in Hs. subst w.
      destruct (isWhiteSpace a) eqn:Ea.
      * exists (String a s). split; [reflexivity|].
        now apply allWhiteSpace_cons_iff.
      * exists s. split; [reflexivity | exact Hw].
    + exists w. split; [|exact Hw]. rewrite append_cons. now f_equal.
Qed.

Lemma trim_split (s : string) :
  exists w1 w2, s = w1 +:+ trim s +:+ w2 /\ allWhiteSpace w1 /\ allWhiteSpace w2.
Proof.
  destruct (trimStart_split s) as [w1 [H1 Hw1]].
  destruct (trimEnd_split (trimStart s)) as [w2 [H2 Hw2]].
  exists w1, w2. unfold trim. now rewrite <- H2.
Qed.

Lemma black_cons (kw : string) :
  black kw = true ->
  exists k kw', kw = String k kw' /\ isWhiteSpace k = false /\
                forall c, In c (list_ascii_of_string kw') -> isWhiteSpace c = false.
Proof.
  unfold black. destruct kw as [|k kw']; [discriminate|].
  cbn [truthy andb list_ascii_of_string forallb].
  rewrite andb_true_iff, negb_true_iff, forallb_forall. intros [Hk Hrest].
  exists k, kw'. repeat split; [exact Hk|].
  intros c Hc. apply negb_true_iff. now apply Hrest.
Qed.

Lemma Occurs_widen (kw u a b : string) :
  Occurs kw u -> Occurs kw (a +:+ u +:+ b).
Proof.
  intros [pre [post ->]]. exists (a +:+ pre), (post +:+ b).
  now rewrite !append_assoc.
Qed.

Lemma Occurs_cons (kw u : string) (a : ascii) :
  Occurs kw u -> Occurs kw (String a u).
Proof. intros [pre [post ->]]. now exists (String a pre), post. Qed.

Lemma Occurs_drop_white_left (kw w u : string) :
  black kw = true -> allWhiteSpace w -> Occurs kw (w +:+ u) -> Occurs kw u.
Proof.
  intros Hk. destruct (black_cons kw Hk) as [k [kw' [-> [Hkw _]]]].
  induction w as [|a w IH]; intros Hw; [now rewrite append_nil_l|].
  apply allWhiteSpace_cons_iff in Hw as [Ha Hw].
  intros [pre [post H]]. rewrite append_cons in H.
  destruct pre as [|p pre].
  - rewrite append_nil_l, append_cons in H. injection H as -> _. congruence.
  - rewrite append_cons in H. injection H as _ H.
    apply (IH Hw). now exists pre, post.
Qed.

Lemma head_before_white (kw post u w : string) :
  (forall c, In c (list_ascii_of_string kw) -> isWhiteSpace c = false) ->
  allWhiteSpace w -> kw +:+ post = u +:+ w -> exists post', u = kw +:+ post'.
Proof.
  revert u. induction kw as [|k kw IH]; intros u Hk Hw H.
  - now exists u.
  - destruct u as [|x u].
    + rewrite append_nil_l, append_cons in H. subst w.
      apply allWhiteSpace_cons in Hw as [Hw _].
      rewrite (Hk k) in Hw; [discriminate | now left].
    + rewrite !append_cons in H. injection H as <- H.
      destruct (IH u) as [post' ->]; [intros c Hc; apply Hk; now right
                                     | exact Hw | exact H |].
      now exists post'.
Qed.

Lemma Occurs_drop_white_right (kw w u : string) :
  black kw = true -> allWhiteSpace w -> Occurs kw (u +:+ w) -> Occurs kw u.
Proof.
  intros Hk Hw. destruct (black_cons kw Hk) as [k [kw' [Hkw [Hkb Hkw']]]].
  assert (Hfree : forall c, In c (list_ascii_of_string kw) -> isWhiteSpace c = false).
  { subst kw. intros c [<- | Hc]; [exact Hkb | now apply Hkw']. }
  induction u as [|x u IH]; intros [pre [post H]].
  - rewrite append_nil_l in H. subst w.
    apply allWhiteSpace_append in Hw as [_ Hw].
    apply allWhiteSpace_append in Hw as [Hw _].
    subst kw. apply allWhiteSpace_cons in Hw as [Hw _]. congruence.
  - destruct pre as [|p pre].
    + rewrite append_nil_l in H. symmetry in H.
      destruct (head_before_white kw post (String x u) w Hfree Hw) as [post' ->];
        [now symmetry|].
      now exists "", post'.
    + rewrite !append_cons in H. injection H as _ H.
      apply Occurs_cons. apply IH. now exists pre, post.
Qed.

Lemma OccursAny_trim (re : RegExp) (s : string) :
  forallb black re = true ->
  OccursAny re (toLowerCase (trim s)) <-> OccursAny re (toLowerCase s).
Proof.
  intros Hre. rewrite forallb_forall in Hre.
  destruct (trim_split s) as [w1 [w2 [Hs [Hw1 Hw2]]]].
  assert (Hlow : toLowerCase s = w1 +:+ toLowerCase (trim s) +:+ w2).
  { rewrite Hs at 1. rewrite !toLowerCase_append.
    now rewrite (toLowerCase_white w1), (toLowerCase_white w2). }
  rewrite Hlow.
  split; intros [kw [Hin Hocc]]; exists kw; (split; [exact Hin|]).
  - now apply Occurs_widen.
  - apply Occurs_drop_white_left in Hocc; [|now apply Hre | exact Hw1].
    now apply Occurs_drop_white_right in Hocc; [|apply Hre | exact Hw2].
Qed.

Lemma RegExp_test_eq (re1 re2 : RegExp) (t1 t2 : string) :
  (OccursAny re1 t1 <-> OccursAny re2 t2) ->
  RegExp_test re1 t1 = RegExp_test re2 t2.
Proof.
  rewrite <- !RegExp_test_iff.
  destruct (RegExp_test re1 t1), (RegExp_test re2 t2); intuition congruence.
Qed.

Lemma toLowerChar_idem (c : ascii) : toLowerChar (toLowerChar c) = toLowerChar c.
Proof. destruct c as [[] [] [] [] [] [] [] []]; reflexivity. Qed.

Lemma toLowerCase_idem (s : string) : toLowerCase (toLowerCase s) = toLowerCase s.
Proof.
  induction s as [|c s IH]; [reflexivity|].
  cbn [toLowerCase]. now rewrite toLowerChar_idem, IH.
Qed.

(** X6. The classification does not change when the summary is trimmed or
    lower-cased: the class of the trimmed text that [generateReport]
    classifies is the class of the text as typed, and capitals make no
    difference. *)
Theorem classifyCase_trim_and_case :
  forall s : string,
    classifyCase (trim s) = classifyCase s /\
    classifyCase (toLowerCase s) = classifyCase s /\
    classifyCase (toLowerCase (trim s)) = classifyCase s.
Proof.
  assert (Htrim : forall s, classifyCase (trim s) = classifyCase s).
  { intros s. unfold classifyCase.
    rewrite (RegExp_test_eq theftPattern theftPattern _ (toLowerCase s))
      by (now apply OccursAny_trim).
    rewrite (RegExp_test_eq threatPattern threatPattern _ (toLowerCase s))
      by (now apply OccursAny_trim).
    rewrite (RegExp_test_eq defamationPattern defamationPattern _ (toLowerCase s))
      by (now apply OccursAny_trim).
    rewrite (RegExp_test_eq injuryPattern injuryPattern _ (toLowerCase s))
      by (now apply OccursAny_trim).
    reflexivity. }
  assert (Hlow : forall s, classifyCase (toLowerCase s) = classifyCase s).
  { intros s. unfold classifyCase. now rewrite toLowerCase_idem. }
  intros s. split; [apply Htrim|]. split; [apply Hlow|].
  now rewrite Hlow, Htrim.
Qed.

Lemma RegExp_test_widen (re : RegExp) (s pre post : string) :
  RegExp_test re (toLowerCase s) = true ->
  RegExp_test re (toLowerCase (pre +:+ s +:+ post)) = true.
Proof.
  rewrite !RegExp_test_iff, !toLowerCase_append.
  intros [kw [Hin Hocc]]. exists kw. split; [exact Hin|].
  now apply Occurs_widen.
Qed.

(** X7. Text added before or after a summary never moves its classification
    to a later rule of the cascade: the class of the longer text is the same
    or an earlier one (theft before threat before defamation before injury
    before general). *)
Theorem classifyCase_widen :
  forall s pre post : string,
    (rank (classifyCase (pre +:+ s +:+ post)) <= rank (classifyCase s))%nat.
Proof.
  intros s pre post. unfold classifyCase.
  pose proof (RegExp_test_widen theftPattern s pre post) as H1.
  pose proof (RegExp_test_widen threatPattern s pre post) as H2.
  pose proof (RegExp_test_widen defamationPattern s pre post) as H3.
  pose proof (RegExp_test_widen injuryPattern s pre post) as H4.
  destruct (RegExp_test theftPattern (toLowerCase s));
  destruct (RegExp_test threatPattern (toLowerCase s));
  destruct (RegExp_test defamationPattern (toLowerCase s));
  destruct (RegExp_test injuryPattern (toLowerCase s));
  try rewrite (H1 eq_refl); try rewrite (H2 eq_refl);
  try rewrite (H3 eq_refl); try rewrite (H4 eq_refl);
  destruct (RegExp_test theftPattern (toLowerCase (pre +:+ s +:+ post)));
  destruct (RegExp_test threatPattern (toLowerCase (pre +:+ s +:+ post)));
  destruct (RegExp_test defamationPattern (toLowerCase (pre +:+ s +:+ post)));
  destruct (RegExp_test injuryPattern (toLowerCase (pre +:+ s +:+ post)));
  cbn; lia.
Qed.

Lemma Occurs_stem (k e txt : string) : Occurs (k +:+ e) txt -> Occurs k txt.
Proof.
  intros [pre [post ->]]. exists pre, (e +:+ post). now rewrite append_assoc.
Qed.

(** X8. Two alternatives of the theft pattern never decide a match: [robbed]
    and [taken] contain [rob] and [take], so the pattern without them matches
    exactly the same texts, and the classification computed with the shorter
    pattern is the same. *)
Theorem theftPattern_redundant :
  forall txt : string,
    RegExp_test theftPattern txt = RegExp_test theftPatternShort txt.
Proof.
  intros txt. apply RegExp_test_eq.
  split; intros [kw [Hin Hocc]].
  - cbn in Hin.
    destruct Hin as [<- | [<- | [<- | [<- | [<- | [<- | [<- | [<- | [<- | [<- | []]]]]]]]]]];
      try (eexists; split; [|exact Hocc]; cbn; tauto).
    + exists "rob". split; [cbn; tauto|]. now apply (Occurs_stem "rob" "bed").
    + exists "take". split; [cbn; tauto|]. now apply (Occurs_stem "take" "n").
  - exists kw. split; [|exact Hocc].
    cbn in Hin |- *. tauto.
Qed.

(** X9. No keyword is shadowed by an earlier rule: a summary made of any one
    keyword of a pattern, alone, is classified in the category of that
    pattern, so each of the 24 alternatives can reach its own category. *)
Theorem keywords_reach_their_category :
  Forall (fun kw => classifyCase kw = "theft") theftPattern /\
  Forall (fun kw => classifyCase kw = "threat") threatPattern /\
  Forall (fun kw => classifyCase kw = "defamation") defamationPattern /\
  Forall (fun kw => classifyCase kw = "injury") injuryPattern.
Proof. repeat split; repeat constructor. Qed.

(** ** More on the strategy *)

(** X10. The [switch] of [generateMediationStrategy] has a [default]
    branch: a classification that is not one of the four offence keys,
    whatever its text, gets the strategy of the general case, also when it
    names no property of the literal [LEGAL_DATA], as every such text other
    than [general] does.  Keys are compared exactly, capitals included. *)
Theorem unknown_classification :
  forall (rt : Runtime) (now : Z) (classification : string),
    classification <> "theft" -> classification <> "threat" ->
    classification <> "defamation" -> classification <> "injury" ->
    generateMediationStrategy now classification =
      generateMediationStrategy now "general" /\
    (classification <> "general" ->
     ~ In classification (LEGAL_DATA_entries.*1)).
Proof.
  intros rt now c H1 H2 H3 H4. split.
  - unfold generateMediationStrategy.
    apply String.eqb_neq in H1, H2, H3, H4. now rewrite H1, H2, H3, H4.
  - intros H5 Hin. apply LEGAL_DATA_own_keys in Hin as [k Hk].
    destruct k; cbn in Hk; subst c; congruence.
Qed.

Lemma unknown_classification_witness :
  generateMediationStrategy (rt := Host.runtime) 0 "Theft" =
    generateMediationStrategy (rt := Host.runtime) 0 "general" /\
  ~ In "Theft" (LEGAL_DATA_entries.*1).
Proof.
  destruct (unknown_classification Host.runtime 0 "Theft") as [Hs Hl];
    try discriminate.
  split; [exact Hs | apply Hl; discriminate].
Defined.

(** X11. Every strategy has the same shape, whatever the classification text
    and the clock: five objectives, three issues for mediation, one issue
    not for mediation and two outcomes, none of them an empty text. *)
Theorem strategy_shape :
  forall (rt : Runtime) (now : Z) (classification : string),
    let m := generateMediationStrategy now classification in
    length (objectives m) = 5%nat /\ length (issues m) = 3%nat /\
    length (notForMediation m) = 1%nat /\ length (outcomes m) = 2%nat /\
    Forall (fun s => s <> "")
      (objectives m ++ issues m ++ notForMediation m ++ outcomes m).
Proof.
  intros rt now c m. subst m. unfold generateMediationStrategy.
  destruct (String.eqb c "theft"); [|destruct (String.eqb c "threat");
    [|destruct (String.eqb c "defamation"); [|destruct (String.eqb c "injury")]]];
    cbn; (repeat split; try reflexivity); repeat constructor; discriminate.
Qed.

(** ** The respondent blocks *)

Lemma refresh_lookup (c : list RespondentDiv) (i : nat) :
  refreshRespondentIndices c !! i =
  (fun div => {| respondent_index := pretty (i + 1)%nat;
                 remove_display :=
                   if (1 <? length c)%nat then "inline-block" else "none";
                 controls := controls div |}) <$> c !! i.
Proof. unfold refreshRespondentIndices. now rewrite list_lookup_imap. Qed.

Lemma refresh_length (c : list RespondentDiv) :
  length (refreshRespondentIndices c) = length c.
Proof. apply length_imap. Qed.

Lemma refresh_controls (c : list RespondentDiv) :
  map controls (refreshRespondentIndices c) = map controls c.
Proof.
  apply list_eq. intros i.
  change (map controls) with (fmap (M := list) controls).
  rewrite !list_lookup_fmap, refresh_lookup.
  now destruct (c !! i).
Qed.

Lemma refresh_idem (c : list RespondentDiv) :
  refreshRespondentIndices (refreshRespondentIndices c) =
  refreshRespondentIndices c.
Proof.
  apply list_eq. intros i.
  rewrite !refresh_lookup, refresh_length. now destruct (c !! i).
Qed.

Lemma refresh_nil_iff (c : list RespondentDiv) :
  refreshRespondentIndices c = [] <-> c = [].
Proof.
  split; [|intros ->; reflexivity].
  intros H. apply (f_equal length) in H. rewrite refresh_length in H.
  now destruct c.
Qed.

(** X12. [refreshRespondentIndices] numbers the blocks 1, 2, ... in document
    order, shows every remove button when there are two blocks or more and
    hides it when there is one, and leaves the number of blocks and the
    values of their controls alone; refreshing a second time changes
    nothing. *)
Theorem refreshRespondentIndices_numbers :
  forall c : list RespondentDiv,
    length (refreshRespondentIndices c) = length c /\
    map controls (refreshRespondentIndices c) = map controls c /\
    (forall i d, refreshRespondentIndices c !! i = Some d ->
       respondent_index d = pretty (i + 1)%nat /\
       (remove_display d = "inline-block" <-> (2 <= length c)%nat) /\
       (remove_display d = "none" <-> length c = 1%nat)) /\
    refreshRespondentIndices (refreshRespondentIndices c) =
      refreshRespondentIndices c.
Proof.
  intros c. split; [apply refresh_length|]. split; [apply refresh_controls|].
  split; [|apply refresh_idem].
  intros i d Hd. rewrite refresh_lookup in Hd.
  destruct (c !! i) as [d0|] eqn:Hi; [|discriminate].
  apply lookup_lt_Some in Hi. injection Hd as <-.
  cbn [respondent_index remove_display].
  split; [reflexivity|].
  destruct (1 <? length c)%nat eqn:E;
    [apply Nat.ltb_lt in E | apply Nat.ltb_ge in E];
    (split; split; intros H; try discriminate H; try reflexivity; lia).
Qed.

Lemma refreshRespondentIndices_numbers_witness :
  map respondent_index
    (refreshRespondentIndices
       [ {| respondent_index := "7"; remove_display := "none";
            controls := blankParty |};
         {| respondent_index := "7"; remove_display := "none";
            controls := blankParty |} ]) = ["1"; "2"].
Proof.
  set (c := [ {| respondent_index := "7"; remove_display := "none";
                 controls := blankParty |};
              {| respondent_index := "7"; remove_display := "none";
                 controls := blankParty |} ]).
  destruct (refreshRespondentIndices c) as [|d0 [|d1 [|]]] eqn:E;
    try discriminate E.
  destruct (proj1 (proj2 (proj2 (refreshRespondentIndices_numbers c))) 0%nat d0)
    as [H0 _]; [now rewrite E|].
  destruct (proj1 (proj2 (proj2 (refreshRespondentIndices_numbers c))) 1%nat d1)
    as [H1 _]; [now rewrite E|].
  cbn [map]. rewrite H0, H1. reflexivity.
Defined.

Lemma addRespondent_Some (c c' : list RespondentDiv) :
  addRespondent c = Some c' ->
  c <> [] /\ length c' = S (length c) /\
  map controls c' = map controls c ++ [blankParty] /\
  refreshRespondentIndices c' = c'.
Proof.
  unfold addRespondent. destruct (last c) as [d|] eqn:El; [|discriminate].
  intros [= <-]. split; [intros ->; discriminate El|].
  rewrite refresh_length, refresh_controls, refresh_idem, length_app, map_app.
  cbn. repeat split. lia.
Qed.

(** X13. [addRespondent] appends one block with four empty values, keeps the
    values of the blocks before it in order, and leaves every remove button
    displayed; on a container that has no block it fails, since there is no
    last block to clone. *)
Theorem addRespondent_appends_blank :
  forall c : list RespondentDiv,
    (c = [] -> addRespondent c = None) /\
    (c <> [] ->
     exists c', addRespondent c = Some c' /\
       length c' = S (length c) /\
       map controls c' = map controls c ++ [blankParty] /\
       Forall (fun d => remove_display d = "inline-block") c').
Proof.
  intros c. split; [intros ->; reflexivity|].
  intros Hne. destruct (addRespondent c) as [c'|] eqn:E.
  - exists c'. split; [reflexivity|].
    destruct (addRespondent_Some c c' E) as (_ & Hlen & Hctl & Hidem).
    split; [exact Hlen|]. split; [exact Hctl|].
    apply List.Forall_forall. intros d Hd.
    apply list_elem_of_In, list_elem_of_lookup in Hd as [i Hi].
    rewrite <- Hidem, refresh_lookup in Hi.
    destruct (c' !! i) as [d0|]; [|discriminate]. injection Hi as <-.
    cbn [remove_display].
    assert (H2 : (1 <? length c')%nat = true) by (apply Nat.ltb_lt; destruct c; [congruence | cbn in Hlen; lia]).
    now rewrite H2.
  - unfold addRespondent in E. destruct (last c) eqn:El; [discriminate|].
    now apply last_None in El.
Qed.

Lemma addRespondent_appends_blank_witness :
  exists c', addRespondent [respondentTemplate] = Some c' /\ length c' = 2%nat.
Proof.
  destruct (proj2 (addRespondent_appends_blank [respondentTemplate]))
    as [c' (H & Hlen & _)]; [discriminate|].
  exists c'. split; [exact H | exact Hlen].
Defined.

Lemma removeRespondent_controls (c : list RespondentDiv) (i : nat) :
  map controls (removeRespondent (Some i) c) = delete i (map controls c).
Proof.
  cbn [removeRespondent]. rewrite refresh_controls.
  change (map controls) with (fmap (M := list) controls).
  apply list_fmap_delete.
Qed.

(** X14. A click on the remove button of block [i] takes that block out and
    keeps the values of the others in order; a click on anything else in the
    container, or on a button that is in no block, changes nothing.  The
    function has no guard of its own for the last block: removing the only
    block leaves the container empty, and [addRespondent] then fails. *)
Theorem removeRespondent_deletes :
  forall (c : list RespondentDiv) (i : nat),
    map controls (onContainerClick (RemoveButton i) c) =
      delete i (map controls c) /\
    ((i < length c)%nat ->
     length (onContainerClick (RemoveButton i) c) = (length c - 1)%nat) /\
    onContainerClick OtherElement c = c /\
    removeRespondent None c = c /\
    (length c = 1%nat ->
     onContainerClick (RemoveButton 0) c = [] /\
     addRespondent (onContainerClick (RemoveButton 0) c) = None).
Proof.
  intros c i. split; [apply removeRespondent_controls|].
  split; [|split; [reflexivity|split; [reflexivity|]]].
  - intros Hi. cbn [onContainerClick removeRespondent].
    rewrite refresh_length. apply length_delete. now apply lookup_lt_is_Some.
  - intros H1. destruct c as [|d [|]]; try discriminate H1.
    split; reflexivity.
Qed.

Lemma removeRespondent_deletes_witness :
  addRespondent (onContainerClick (RemoveButton 0) [respondentTemplate]) = None.
Proof.
  apply (proj2 (proj2 (proj2 (proj2
           (removeRespondent_deletes [respondentTemplate] 0%nat))))).
  reflexivity.
Defined.

Lemma Reachable_inv (c : list RespondentDiv) :
  Reachable c -> c <> [] /\ refreshRespondentIndices c = c.
Proof.
  induction 1 as [page | c c' _ _ Hadd | c i d _ [Hne Hnum] Hi Hshown | c _ IH].
  - split; [discriminate | reflexivity].
  - apply addRespondent_Some in Hadd as (_ & Hlen & _ & Hidem).
    split; [|exact Hidem]. intros ->. discriminate Hlen.
  - cbn [onContainerClick removeRespondent].
    split; [|apply refresh_idem].
    rewrite refresh_nil_iff. intros Hdel.
    apply (f_equal length) in Hdel.
    rewrite length_delete in Hdel by eauto.
    rewrite <- Hnum, refresh_lookup in Hi.
    destruct (c !! i) as [d0|] eqn:Hci; [|discriminate].
    injection Hi as <-. cbn [remove_display] in Hshown.
    destruct (1 <? length c)%nat eqn:E; [|discriminate].
    apply Nat.ltb_lt in E. cbn in Hdel. lia.
  - exact IH.
Qed.

(** X15. After a clear, whatever the user does with the add button and the
    remove buttons that are displayed, the container always holds at least
    one block, the blocks are numbered from 1 with the remove buttons shown
    exactly when there are two blocks or more, and [addRespondent] always
    finds a last block to clone: it never fails. *)
Theorem respondent_blocks_invariant :
  forall c : list RespondentDiv,
    Reachable c ->
    c <> [] /\
    refreshRespondentIndices c = c /\
    is_Some (addRespondent c) /\
    (forall i d, c !! i = Some d ->
       respondent_index d = pretty (i + 1)%nat /\
       (remove_display d = "inline-block" <-> (2 <= length c)%nat)).
Proof.
  intros c Hr. destruct (Reachable_inv c Hr) as [Hne Hnum].
  split; [exact Hne|]. split; [exact Hnum|]. split.
  - unfold addRespondent. destruct (last c) eqn:El; [eauto|].
    now apply last_None in El.
  - intros i d Hd. rewrite <- Hnum, refresh_lookup in Hd.
    destruct (c !! i) as [d0|] eqn:Hi; [|discriminate].
    injection Hd as <-. cbn [respondent_index remove_display].
    split; [reflexivity|].
    destruct (1 <? length c)%nat eqn:E;
      [apply Nat.ltb_lt in E | apply Nat.ltb_ge in E];
      (split; intros H; try discriminate H; try reflexivity; lia).
Qed.

Lemma respondent_blocks_invariant_witness :
  is_Some (addRespondent
             (onContainerClick (RemoveButton 0)
                (refreshRespondentIndices
                   [respondentTemplate; respondentTemplate]))).
Proof.
  apply respondent_blocks_invariant.
  eapply (Reachable_remove _ 0%nat); [|reflexivity|reflexivity].
  eapply Reachable_add;
    [apply (Reachable_clear {| reportSection_hidden := false;
                               respondentContainer := [] |})
    | reflexivity].
Defined.

Lemma anyFilled_blank : anyFilled (trimParty blankParty) = false.
Proof. reflexivity. Qed.

(** X16. A block that was added and left blank does not reach the report:
    the data gathered from the page after [addRespondent] is the data
    gathered before it. *)
Theorem gatherData_ignores_blank_block :
  forall (f : Form) (c c' : list RespondentDiv),
    addRespondent c = Some c' ->
    gatherData (withRespondents f c') = gatherData (withRespondents f c).
Proof.
  intros f c c' Hadd.
  apply addRespondent_Some in Hadd as (_ & _ & Hctl & _).
  unfold gatherData. cbn [withRespondents el_caseId el_dateReceived
    el_complainantName el_complainantPhone el_complainantEmail
    el_complainantAddress el_respondents el_incidentSummary
    el_incidentLocation el_incidentDateTime].
  rewrite !gatherRespondents_fold, Hctl, map_app, List.filter_app.
  cbn [map List.filter]. rewrite anyFilled_blank, app_nil_r. reflexivity.
Qed.

Lemma gatherData_ignores_blank_block_witness :
  respondents (gatherData (withRespondents carabaoForm
     (refreshRespondentIndices [respondentTemplate; respondentTemplate])))
  = [].
Proof.
  rewrite (gatherData_ignores_blank_block carabaoForm [respondentTemplate]
             (refreshRespondentIndices [respondentTemplate; respondentTemplate])
             eq_refl).
  reflexivity.
Defined.

(** ** Legal search *)

Lemma count_append (c : ascii) (s t : string) :
  Research.count c (s +:+ t) = (Research.count c s + Research.count c t)%nat.
Proof.
  induction s as [|a s IH]; [reflexivity|].
  rewrite append_cons. cbn [Research.count]. rewrite IH. lia.
Qed.

(** The characters that structure an address: [&], [=], [#], [?] and the
    space.  None of them comes out of the encoder. *)
Lemma count_encodeByte (c b : ascii) :
  In c ["&"; "="; "#"; "?"; " "]%char ->
  Research.count c (Research.encodeByte b) = 0%nat.
Proof.
  intros [<- | [<- | [<- | [<- | [<- | []]]]]];
    destruct b as [[] [] [] [] [] [] [] []]; reflexivity.
Qed.

Lemma count_encode (c : ascii) (s : string) :
  In c ["&"; "="; "#"; "?"; " "]%char ->
  Research.count c (Research.encode s) = 0%nat.
Proof.
  intros Hc. induction s as [|b s IH]; [reflexivity|].
  cbn [Research.encode]. now rewrite count_append, count_encodeByte, IH.
Qed.

Lemma legalSearch_configured (k x : string) (sites : option (list string))
    (fetch : string -> Research.Outcome Research.Response) (query : string) :
  k <> "" -> x <> "" ->
  Research.legalSearch
    (Some {| Research.GOOGLE_API_KEY := Some k;
             Research.GOOGLE_CSE_ID := Some x;
             Research.ALLOWED_SITES := sites |}) fetch query =
  let url := searchUrl k x (searchText query sites) in
  match fetch url with
  | Research.Throws message => ([url], Research.Throws message)
  | Research.Returns res =>
      if negb (Research.ok res) then
        ([url], Research.Throws
                  ("Search request failed: " +:+ pretty (Research.status res)))
      else
        match Research.json res with
        | Research.Throws message => ([url], Research.Throws message)
        | Research.Returns data =>
            ([url],
             Research.Returns
               (map (fun item =>
                       {| Research.title := Research.api_title item;
                          Research.link := Research.api_link item;
                          Research.displayLink := Research.api_displayLink item;
                          Research.snippet :=
                            default "" (Research.api_snippet item) |})
                    (default [] (Research.items data))))
        end
  end.
Proof.
  intros Hk Hx. apply truthy_true in Hk, Hx.
  unfold Research.legalSearch.
  change (default Research.noConfig
            (Some {| Research.GOOGLE_API_KEY := Some k;
                     Research.GOOGLE_CSE_ID := Some x;
                     Research.ALLOWED_SITES := sites |}))
    with {| Research.GOOGLE_API_KEY := Some k;
            Research.GOOGLE_CSE_ID := Some x;
            Research.ALLOWED_SITES := sites |}.
  cbn [Research.GOOGLE_API_KEY Research.GOOGLE_CSE_ID
       Research.ALLOWED_SITES Research.falsy].
  change (default "" (Some k)) with k. change (default "" (Some x)) with x.
  rewrite Hk, Hx. cbn [negb orb].
  assert (Hurl : "https://www.googleapis.com/customsearch/v1?" +:+
                 Research.URLSearchParams_toString
                   [("key", k); ("cx", x);
                    ("q", query +:+ " (" +:+
                          String.concat " OR "
                            (map (fun d => "site:" +:+ d) (default [] sites))
                          +:+ ")");
                    ("num", "10")]
                 = searchUrl k x (searchText query sites)).
  { unfold Research.URLSearchParams_toString, searchUrl, searchText.
    cbn [map String.concat fst snd].
    change (Research.encode "key") with "key".
    change (Research.encode "cx") with "cx".
    change (Research.encode "q") with "q".
    change (Research.encode "num") with "num".
    change (Research.encode "10") with "10".
    rewrite !append_assoc. reflexivity. }
  rewrite Hurl. reflexivity.
Qed.

(** X17. Without a configuration object, or with an API key or an engine id
    that is missing or empty, [legalSearch] throws the configuration error
    and requests nothing.  The configuration of [config.js] has both
    empty: as shipped, every search fails that way, whatever the query and
    the network. *)
Theorem legalSearch_unconfigured :
  (forall (cfg : option Research.SearchConfig)
          (fetch : string -> Research.Outcome Research.Response)
          (query : string),
      (cfg = None \/
       exists c, cfg = Some c /\
         (Research.falsy (Research.GOOGLE_API_KEY c) = true \/
          Research.falsy (Research.GOOGLE_CSE_ID c) = true)) ->
      Research.legalSearch cfg fetch query =
        ([], Research.Throws
               "Please configure GOOGLE_API_KEY and GOOGLE_CSE_ID in config.js")) /\
  (forall (fetch : string -> Research.Outcome Research.Response)
          (query : string),
      Research.legalSearch Research.LEGAL_SEARCH fetch query =
        ([], Research.Throws
               "Please configure GOOGLE_API_KEY and GOOGLE_CSE_ID in config.js")).
Proof.
  split; [|reflexivity].
  intros cfg fetch query [-> | [c [-> [H | H]]]]; [reflexivity | |];
    unfold Research.legalSearch;
    change (default Research.noConfig (Some c)) with c; rewrite H;
    [reflexivity | now rewrite orb_true_r].
Qed.

Lemma legalSearch_unconfigured_witness :
  Research.legalSearch
    (Some {| Research.GOOGLE_API_KEY := Some "KEY";
             Research.GOOGLE_CSE_ID := None;
             Research.ALLOWED_SITES := None |}) fetchTwo "theft" =
  ([], Research.Throws
         "Please configure GOOGLE_API_KEY and GOOGLE_CSE_ID in config.js").
Proof.
  apply (proj1 legalSearch_unconfigured). right.
  eexists. split; [reflexivity|]. right. reflexivity.
Defined.

(** X18. A configured search makes exactly one request.  If the request
    fails, its error is thrown on; if the response is not ok, the error
    names its status and the body is not read; if it is ok, there is one
    result for each item of the body, in the same order, with the empty text
    for a missing snippet, and no result at all when the body has no
    [items]. *)
Theorem legalSearch_outcomes :
  forall (k x : string) (sites : option (list string))
         (fetch : string -> Research.Outcome Research.Response)
         (query : string),
    k <> "" -> x <> "" ->
    let run :=
      Research.legalSearch
        (Some {| Research.GOOGLE_API_KEY := Some k;
                 Research.GOOGLE_CSE_ID := Some x;
                 Research.ALLOWED_SITES := sites |}) fetch query in
    let url := searchUrl k x (searchText query sites) in
    fst run = [url] /\
    (forall m, fetch url = Research.Throws m -> snd run = Research.Throws m) /\
    (forall res, fetch url = Research.Returns res -> Research.ok res = false ->
       snd run = Research.Throws
                   ("Search request failed: " +:+ pretty (Research.status res))) /\
    (forall res data,
       fetch url = Research.Returns res -> Research.ok res = true ->
       Research.json res = Research.Returns data ->
       exists results,
         snd run = Research.Returns results /\
         map Research.title results =
           map Research.api_title (default [] (Research.items data)) /\
         map Research.link results =
           map Research.api_link (default [] (Research.items data)) /\
         map Research.displayLink results =
           map Research.api_displayLink (default [] (Research.items data)) /\
         map Research.snippet results =
           map (fun item => default "" (Research.api_snippet item))
               (default [] (Research.items data)) /\
         (Research.items data = None -> results = [])).
Proof.
  intros k x sites fetch query Hk Hx run url. subst run.
  rewrite (legalSearch_configured k x sites fetch query Hk Hx).
  cbv zeta. fold url.
  destruct (fetch url) as [res|m] eqn:Ef.
  - destruct (Research.ok res) eqn:Eok; cbn [negb].
    + destruct (Research.json res) as [data|m] eqn:Ej.
      * split; [reflexivity|]. split; [discriminate|]. split; [intros ? [= <-]; congruence|].
        intros res' data' [= <-] _ Hj. rewrite Ej in Hj. injection Hj as <-.
        eexists. split; [reflexivity|]. cbn [snd].
        rewrite !map_map. cbn [Research.title Research.link
          Research.displayLink Research.snippet].
        repeat split. intros ->. reflexivity.
      * split; [reflexivity|]. split; [discriminate|].
        split; [intros ? [= <-]; congruence|].
        intros res' data' [= <-] _. congruence.
    + split; [reflexivity|]. split; [discriminate|].
      split; [intros ? [= <-] _; reflexivity|].
      intros res' data' [= <-]. congruence.
  - split; [reflexivity|]. split; [now intros ? [= <-]|].
    split; [discriminate|]. discriminate.
Qed.

Lemma legalSearch_outcomes_witness :
  exists results,
    snd (Research.legalSearch configured fetchTwo "theft") =
      Research.Returns results /\
    map Research.snippet results = ["Act No. 3815"; ""].
Proof.
  destruct (legalSearch_outcomes "KEY" "CSE"
              (Some ["lawphil.net"; "chanrobles.com"]) fetchTwo "theft")
    as (_ & _ & _ & H); try discriminate.
  destruct (H _ _ eq_refl eq_refl eq_refl) as [results (Hr & _ & _ & _ & Hs & _)].
  exists results. split; [exact Hr | exact Hs].
Defined.

(** X19. Nothing the user types, and nothing in the configuration, can
    change the shape of the requested address: it always has the one [?],
    the three [&] that separate the four parameters and the four [=] that
    follow their names, and no [#] and no space, because the key, the engine
    id and the search text all go through the encoder. *)
Theorem search_url_shape :
  forall (k x : string) (sites : option (list string))
         (fetch : string -> Research.Outcome Research.Response)
         (query : string),
    k <> "" -> x <> "" ->
    exists url,
      fst (Research.legalSearch
             (Some {| Research.GOOGLE_API_KEY := Some k;
                      Research.GOOGLE_CSE_ID := Some x;
                      Research.ALLOWED_SITES := sites |}) fetch query) = [url] /\
      Research.count "?" url = 1%nat /\
      Research.count "&" url = 3%nat /\
      Research.count "=" url = 4%nat /\
      Research.count "#" url = 0%nat /\
      Research.count " " url = 0%nat.
Proof.
  intros k x sites fetch query Hk Hx.
  exists (searchUrl k x (searchText query sites)). split.
  - rewrite (legalSearch_configured k x sites fetch query Hk Hx). cbv zeta.
    destruct (fetch _) as [res|]; [|reflexivity].
    destruct (negb (Research.ok res)); [reflexivity|].
    destruct (Research.json res); reflexivity.
  - unfold searchUrl.
    repeat split; rewrite !count_append, !count_encode by (cbn; tauto);
      reflexivity.
Qed.

Lemma search_url_shape_witness :
  fst (Research.legalSearch configured fetchDown "a&b=c #d") =
  [ "https://www.googleapis.com/customsearch/v1?key=KEY&cx=CSE&q=a%26b%3Dc+%23d+%28site%3Alawphil.net+OR+site%3Achanrobles.com%29&num=10" ].
Proof.
  destruct (search_url_shape "KEY" "CSE" (Some ["lawphil.net"; "chanrobles.com"])
              fetchDown "a&b=c #d") as [url [Hurl _]]; try discriminate.
  change (Research.legalSearch configured fetchDown "a&b=c #d")
    with (Research.legalSearch
            (Some {| Research.GOOGLE_API_KEY := Some "KEY";
                     Research.GOOGLE_CSE_ID := Some "CSE";
                     Research.ALLOWED_SITES :=
                       Some ["lawphil.net"; "chanrobles.com"] |})
            fetchDown "a&b=c #d").
  rewrite Hurl. vm_compute in Hurl. injection Hurl as <-. reflexivity.
Defined.

Lemma trimStart_white (s : string) : allWhiteSpace s -> trimStart s = "".
Proof.
  induction s as [|a s IH]; [reflexivity|].
  intros H. apply allWhiteSpace_cons in H as [Ha Hs].
  cbn [trimStart]. rewrite Ha. now apply IH.
Qed.

Lemma trim_white (s : string) : allWhiteSpace s -> trim s = "".
Proof. intros H. unfold trim. now rewrite trimStart_white. Qed.

(** X20. [startLegalSearch] does nothing at all when the search box is
    absent, empty or filled with white space only: no request, no change
    to the page.  Otherwise it searches for the trimmed text. *)
Theorem startLegalSearch_blank :
  forall (cfg : option Research.SearchConfig)
         (fetch : string -> Research.Outcome Research.Response)
         (page : Research.Page),
    (Research.legal_query page = None ->
     Research.startLegalSearch cfg fetch page = ([], page)) /\
    (forall input, Research.legal_query page = Some input ->
       allWhiteSpace input ->
       Research.startLegalSearch cfg fetch page = ([], page)) /\
    (forall input, Research.legal_query page = Some input ->
       trim input <> "" ->
       Research.startLegalSearch cfg fetch page =
         Research.runLegalSearchUI cfg fetch (trim input) page).
Proof.
  intros cfg fetch page. unfold Research.startLegalSearch.
  split; [intros ->; reflexivity|]. split.
  - intros input -> Hw. now rewrite (trim_white input Hw).
  - intros input -> Hne. apply truthy_true in Hne. now rewrite Hne.
Qed.

Lemma startLegalSearch_blank_witness :
  Research.startLegalSearch configured fetchTwo
    {| Research.legal_query := Some "   ";
       Research.legal_results := Some (Research.ResultsText "");
       Research.citationsList := Some [] |} =
  ([], {| Research.legal_query := Some "   ";
          Research.legal_results := Some (Research.ResultsText "");
          Research.citationsList := Some [] |}).
Proof.
  apply (proj1 (proj2 (startLegalSearch_blank configured fetchTwo _)))
    with (input := "   "); [reflexivity|].
  intros c [<- | [<- | [<- | []]]]; reflexivity.
Defined.

(** X21. With the configuration of [config.js], a search started from the
    page, whatever is typed and whatever the network would answer, makes no
    request and ends with the results element showing the configuration
    error; the search box and the citations are as before. *)
Theorem shipped_search_shows_error :
  forall (fetch : string -> Research.Outcome Research.Response)
         (page : Research.Page) (input : string) (v : Research.ResultsView),
    Research.legal_query page = Some input ->
    Research.legal_results page = Some v ->
    trim input <> "" ->
    Research.startLegalSearch Research.LEGAL_SEARCH fetch page =
      ([], {| Research.legal_query := Some input;
              Research.legal_results :=
                Some (Research.ResultsText
                        "Error: Please configure GOOGLE_API_KEY and GOOGLE_CSE_ID in config.js");
              Research.citationsList := Research.citationsList page |}).
Proof.
  intros fetch page input v Hq Hr Hne.
  unfold Research.startLegalSearch. rewrite Hq.
  apply truthy_true in Hne. rewrite Hne. cbn [negb].
  unfold Research.runLegalSearchUI. rewrite Hr.
  change (Research.legalSearch Research.LEGAL_SEARCH fetch (trim input))
    with (@nil string,
          @Research.Throws (list Research.Item)
            "Please configure GOOGLE_API_KEY and GOOGLE_CSE_ID in config.js").
  unfold Research.setResults. cbn [Research.legal_query Research.citationsList].
  now rewrite Hq.
Qed.

Lemma shipped_search_shows_error_witness :
  Research.legal_results
    (snd (Research.startLegalSearch Research.LEGAL_SEARCH fetchTwo searchPage)) =
  Some (Research.ResultsText
          "Error: Please configure GOOGLE_API_KEY and GOOGLE_CSE_ID in config.js").
Proof.
  rewrite (shipped_search_shows_error fetchTwo searchPage
             "  theft & robbery " (Research.ResultsText "")
             eq_refl eq_refl); [reflexivity | discriminate].
Defined.

(** X22. What a configured search leaves in the results element: the error
    with the status when the response is not ok; the text
    [No results found on trusted sources.] when the body has no item; one
    card for each item, in order, otherwise.  It makes one request, and it
    never touches the search box or the citations. *)
Theorem runLegalSearchUI_shows :
  forall (k x : string) (sites : option (list string))
         (fetch : string -> Research.Outcome Research.Response)
         (query : string) (page : Research.Page) (v : Research.ResultsView)
         (res : Research.Response),
    k <> "" -> x <> "" ->
    Research.legal_results page = Some v ->
    fetch (searchUrl k x (searchText query sites)) = Research.Returns res ->
    let run :=
      Research.runLegalSearchUI
        (Some {| Research.GOOGLE_API_KEY := Some k;
                 Research.GOOGLE_CSE_ID := Some x;
                 Research.ALLOWED_SITES := sites |}) fetch query page in
    fst run = [searchUrl k x (searchText query sites)] /\
    Research.legal_query (snd run) = Research.legal_query page /\
    Research.citationsList (snd run) = Research.citationsList page /\
    (Research.ok res = false ->
     Research.legal_results (snd run) =
       Some (Research.ResultsText
               ("Error: Search request failed: " +:+ pretty (Research.status res)))) /\
    (forall data, Research.ok res = true ->
       Research.json res = Research.Returns data ->
       (default [] (Research.items data) = [] ->
        Research.legal_results (snd run) =
          Some (Research.ResultsText "No results found on trusted sources.")) /\
       (default [] (Research.items data) <> [] ->
        exists cards,
          Research.legal_results (snd run) = Some (Research.ResultsCards cards) /\
          map Research.link cards =
            map Research.api_link (default [] (Research.items data)) /\
          map Research.title cards =
            map Research.api_title (default [] (Research.items data)))).
Proof.
  intros k x sites fetch query page v res Hk Hx Hv Hf run. subst run.
  unfold Research.runLegalSearchUI. rewrite Hv.
  rewrite (legalSearch_configured k x sites fetch query Hk Hx). cbv zeta.
  rewrite Hf.
  destruct (Research.ok res) eqn:Eok; cbn [negb].
  - destruct (Research.json res) as [data|m] eqn:Ej.
    + destruct (default [] (Research.items data)) as [|it its] eqn:Ei; cbn;
        (split; [reflexivity|]); (split; [reflexivity|]);
        (split; [reflexivity|]); (split; [discriminate|]);
        intros data' _ Hj; injection Hj as <-; rewrite Ei.
      * split; [reflexivity | congruence].
      * split; [discriminate|]. intros _. eexists.
        split; [reflexivity|]. cbn [map Research.link Research.title].
        rewrite !map_map. split; reflexivity.
    + cbn. split; [reflexivity|]. split; [reflexivity|].
      split; [reflexivity|]. split; [discriminate|].
      intros data' _ Hj. discriminate Hj.
  - cbn. split; [reflexivity|]. split; [reflexivity|].
    split; [reflexivity|]. split; [reflexivity|].
    intros data' H. discriminate H.
Qed.

Lemma runLegalSearchUI_shows_witness :
  exists cards,
    Research.legal_results
      (snd (Research.runLegalSearchUI configured fetchTwo "theft" searchPage))
      = Some (Research.ResultsCards cards) /\
    map Research.title cards = ["Revised Penal Code"; "G.R. No. 181626"].
Proof.
  destruct (runLegalSearchUI_shows "KEY" "CSE"
              (Some ["lawphil.net"; "chanrobles.com"]) fetchTwo "theft"
              searchPage (Research.ResultsText "") _
              ltac:(discriminate) ltac:(discriminate) eq_refl eq_refl)
    as (_ & _ & _ & _ & H).
  destruct (H _ eq_refl eq_refl) as [_ Hcards].
  destruct Hcards as [cards (Hc & _ & Ht)]; [discriminate|].
  exists cards. split; [exact Hc | exact Ht].
Defined.

Lemma attachCitation_Some (item : Research.Item) (page : Research.Page)
    (l : list Research.Citation) :
  Research.citationsList page = Some l ->
  Research.attachCitation item page =
  {| Research.legal_query := Research.legal_query page;
     Research.legal_results := Research.legal_results page;
     Research.citationsList := Some (l ++ [citationOf item]) |}.
Proof. intros H. unfold Research.attachCitation. now rewrite H. Qed.

(** X23. Attaching results one after the other adds their entries at the end
    of the citations list, in the order of the clicks, and never removes or
    merges anything: a result attached twice is listed twice.  The search box
    and the results are left alone, and a page without the list is left as
    it is. *)
Theorem attachCitation_appends :
  forall (picked : list Research.Item) (page : Research.Page),
    (forall l, Research.citationsList page = Some l ->
       fold_left (fun p item => Research.attachCitation item p) picked page =
       {| Research.legal_query := Research.legal_query page;
          Research.legal_results := Research.legal_results page;
          Research.citationsList := Some (l ++ map citationOf picked) |}) /\
    (Research.citationsList page = None ->
     fold_left (fun p item => Research.attachCitation item p) picked page = page).
Proof.
  intros picked. induction picked as [|item picked IH]; intros page.
  - split; [|reflexivity]. intros l Hl. cbn. rewrite app_nil_r.
    destruct page; cbn in *. now subst.
  - split.
    + intros l Hl. cbn [fold_left map].
      rewrite (attachCitation_Some item page l Hl).
      rewrite (proj1 (IH _) (l ++ [citationOf item])) by reflexivity.
      cbn [Research.legal_query Research.legal_results].
      now rewrite <- app_assoc.
    + intros Hn. cbn [fold_left].
      assert (Hsame : Research.attachCitation item page = page).
      { unfold Research.attachCitation. now rewrite Hn. }
      rewrite Hsame. now apply IH.
Qed.

Lemma attachCitation_appends_witness :
  Research.citationsList
    (Research.attachCitation
       {| Research.title := "Revised Penal Code";
          Research.link := "https://lawphil.net/rpc";
          Research.displayLink := "lawphil.net";
          Research.snippet := "" |}
       (Research.attachCitation
          {| Research.title := "Revised Penal Code";
             Research.link := "https://lawphil.net/rpc";
             Research.displayLink := "lawphil.net";
             Research.snippet := "" |} searchPage))
  = Some [ {| Research.citation_href := "https://lawphil.net/rpc";
              Research.citation_text := "Revised Penal Code";
              Research.citation_tail := " — lawphil.net" |};
           {| Research.citation_href := "https://lawphil.net/rpc";
              Research.citation_text := "Revised Penal Code";
              Research.citation_tail := " — lawphil.net" |} ].
Proof.
  exact (f_equal Research.citationsList
           (proj1 (attachCitation_appends
                     [ {| Research.title := "Revised Penal Code";
                          Research.link := "https://lawphil.net/rpc";
                          Research.displayLink := "lawphil.net";
                          Research.snippet := "" |};
                       {| Research.title := "Revised Penal Code";
                          Research.link := "https://lawphil.net/rpc";
                          Research.displayLink := "lawphil.net";
                          Research.snippet := "" |} ] searchPage) [] eq_refl)).
Defined.

(** ** Rendering *)

#[local] Arguments textList : simpl never.

Lemma textsOf_items (items : list string) :
  flat_map (textsOf "li") (map (fun o => Elem "li" [] [TextNode o]) items) = items.
Proof.
  induction items as [|o items IH]; [reflexivity|].
  cbn [map flat_map]. rewrite IH.
  change (textsOf "li" (Elem "li" [] [TextNode o])) with [o].
  reflexivity.
Qed.

Lemma textsOf_textList_li (items : list string) :
  textsOf "li" (textList items) = items.
Proof. unfold textList. cbn [textsOf]. apply textsOf_items. Qed.

Lemma textsOf_textList_heading (tag : string) (items : list string) :
  String.eqb "ul" tag = false -> String.eqb "li" tag = false ->
  textsOf tag (textList items) = [].
Proof.
  intros Hul Hli. unfold textList. cbn [textsOf]. rewrite Hul. cbn [app].
  induction items as [|o items IH]; [reflexivity|].
  cbn [map flat_map textsOf]. rewrite Hli, IH. reflexivity.
Qed.

Section RenderFacts.
Context {rt : Runtime}.

Lemma renderReport_length (now : Z) (data : ReportData) :
  length (fst (renderReport now data)) =
  match analysis data with Some _ => 7%nat | None => 3%nat end.
Proof. unfold renderReport. destruct (analysis data); reflexivity. Qed.

Lemma renderReport_completion (now : Z) (data : ReportData) :
  snd (renderReport now data) =
  match analysis data with Some _ => Normal | None => TypeError end.
Proof. unfold renderReport. destruct (analysis data); reflexivity. Qed.

Lemma rendered_lists (now : Z) (data : ReportData) :
  is_Some (analysis data) ->
  textsIn "li" (strategySection (fst (renderReport now data))) =
    objectives (mediation data) ++ issues (mediation data) ++
    notForMediation (mediation data) ++ outcomes (mediation data) /\
  textsIn "li" (questionsSection (fst (renderReport now data))) =
    allQuestions (for_complainant (questions data)) ++
    allQuestions (for_respondent (questions data)) /\
  textsIn "h4" (questionsSection (fst (renderReport now data))) =
    ["Complainant"; "Respondent"].
Proof.
  intros [a Ha]. unfold renderReport. rewrite Ha.
  unfold strategySection, questionsSection, textsIn, allQuestions.
  cbn. rewrite !textsOf_textList_li.
  rewrite !textsOf_textList_heading by reflexivity.
  cbn. rewrite !app_nil_r, <- !app_assoc. repeat split.
Qed.

End RenderFacts.

(** X24. [renderReport] reads properties of [data.analysis] without a test:
    handed a record whose analysis is missing it stops with a type error
    after the header, the parties and the incident, leaving three of the
    seven parts in the page.  That cannot happen after [generateReport]: the
    record of a run always renders to the end, all seven parts, whatever the
    clock shows. *)
Theorem renderReport_completes :
  forall (rt : Runtime) (now : Z) (data : ReportData),
    (analysis data = None ->
     snd (renderReport now data) = TypeError /\
     length (fst (renderReport now data)) = 3%nat) /\
    (forall (now' : Z) (f : Form),
       rendered (generateReport now' f) = Some data ->
       snd (renderReport now data) = Normal /\
       length (fst (renderReport now data)) = 7%nat).
Proof.
  intros rt now data. split.
  - intros Hn. now rewrite renderReport_completion, renderReport_length, Hn.
  - intros now' f Hr.
    assert (Hv : snd (validateForm f) = true).
    { destruct (snd (validateForm f)) eqn:Hv; [reflexivity|].
      rewrite (generateReport_invalid now' f Hv) in Hr. discriminate Hr. }
    rewrite (generateReport_valid now' f Hv) in Hr. cbv zeta in Hr.
    cbn [rendered] in Hr. injection Hr as <-.
    destruct (classifyCase_FirstMatch (trim (el_incidentSummary f)))
      as [c [Hc _]].
    rewrite renderReport_completion, renderReport_length.
    cbn [analysis]. rewrite Hc.
    destruct c; split; reflexivity.
Qed.

Lemma renderReport_completes_witness :
  snd (renderReport (rt := Host.runtime) 0
         {| formData := gatherData carabaoForm;
            analysis := lookup_legal "Theft";
            mediation := generateMediationStrategy (rt := Host.runtime) 0 "Theft";
            questions :=
              {| for_complainant :=
                   generateQuestions (rt := Host.runtime) "Theft" "complainant" "" "";
                 for_respondent :=
                   generateQuestions (rt := Host.runtime) "Theft" "respondent" "" "" |} |})
  = TypeError.
Proof.
  apply (proj1 (renderReport_completes Host.runtime 0 _)). reflexivity.
Defined.

(** X25. Nothing of the strategy and of the questions is lost or reordered
    on the way to the page: the items of the strategy part are the
    objectives, the issues, the issues not for mediation and the outcomes of
    the record, in that order, and the items of the questions part are the
    fifteen questions of the complainant followed by the fifteen of the
    respondent, under the two role headings. *)
Theorem renderReport_lists :
  forall (rt : Runtime) (now : Z) (data : ReportData),
    is_Some (analysis data) ->
    textsIn "li" (strategySection (fst (renderReport now data))) =
      objectives (mediation data) ++ issues (mediation data) ++
      notForMediation (mediation data) ++ outcomes (mediation data) /\
    textsIn "li" (questionsSection (fst (renderReport now data))) =
      allQuestions (for_complainant (questions data)) ++
      allQuestions (for_respondent (questions data)) /\
    textsIn "h4" (questionsSection (fst (renderReport now data))) =
      ["Complainant"; "Respondent"].
Proof. intros rt now data. apply rendered_lists. Qed.

Lemma renderReport_lists_witness :
  length (textsIn "li" (questionsSection (fst (renderReport (rt := Host.runtime) 0
     {| formData := gatherData carabaoForm;
        analysis := lookup_legal "theft";
        mediation := generateMediationStrategy (rt := Host.runtime) 0 "theft";
        questions :=
          {| for_complainant :=
               generateQuestions (rt := Host.runtime) "theft" "complainant" "" "";
             for_respondent :=
               generateQuestions (rt := Host.runtime) "theft" "respondent" "" "" |} |}))))
  = 30%nat.
Proof.
  set (data := {| formData := gatherData carabaoForm;
                  analysis := lookup_legal "theft";
                  mediation := generateMediationStrategy (rt := Host.runtime) 0 "theft";
                  questions :=
                    {| for_complainant :=
                         generateQuestions (rt := Host.runtime) "theft" "complainant" "" "";
                       for_respondent :=
                         generateQuestions (rt := Host.runtime) "theft" "respondent" "" "" |} |}).
  assert (Hs : is_Some (analysis data)) by (exists LEGAL_DATA_theft; reflexivity).
  rewrite (proj1 (proj2 (renderReport_lists Host.runtime 0 data Hs))).
  reflexivity.
Defined.

(** X26. Which headings the legal part of a rendered report has follows
    from the classification of its summary: the nature and the violations
    always; the jurisprudence for theft, threat and defamation only, the
    records of injury and of the general case having none; the
    counter-charges for every class but the general one. *)
Theorem legal_headings_by_class :
  forall (rt : Runtime) (now now' : Z) (f : Form) (data : ReportData),
    rendered (generateReport now' f) = Some data ->
    let c := classifyCase (summary (incident (formData data))) in
    textsIn "h4" (legalSection (fst (renderReport now data))) =
      [ "Nature of Case"; "Possible Legal Violations by Respondent(s)" ] ++
      (if String.eqb c "theft" || String.eqb c "threat" || String.eqb c "defamation"
       then [ "Related Court Jurisprudence" ] else []) ++
      (if String.eqb c "general"
       then [] else [ "Possible Counter‑Charges by Respondent(s)" ]).
Proof.
  intros rt now now' f data Hr.
  assert (Hv : snd (validateForm f) = true).
  { destruct (snd (validateForm f)) eqn:Hv; [reflexivity|].
    rewrite (generateReport_invalid now' f Hv) in Hr. discriminate Hr. }
  rewrite (generateReport_valid now' f Hv) in Hr. cbv zeta in Hr.
  cbn [rendered] in Hr. injection Hr as <-.
  cbn [formData]. cbv zeta.
  change (summary (incident (gatherData f))) with (trim (el_incidentSummary f)).
  destruct (classifyCase_FirstMatch (trim (el_incidentSummary f)))
    as [c [Hc _]].
  unfold renderReport. cbn [analysis]. rewrite !Hc.
  destruct c; vm_compute; reflexivity.
Qed.

Lemma legal_headings_by_class_witness :
  exists data,
    rendered (generateReport (rt := Host.runtime) 0 carabaoForm) = Some data /\
    textsIn "h4" (legalSection (fst (renderReport (rt := Host.runtime) 5 data))) =
      [ "Nature of Case"; "Possible Legal Violations by Respondent(s)";
        "Related Court Jurisprudence";
        "Possible Counter‑Charges by Respondent(s)" ].
Proof.
  destruct (rendered (generateReport (rt := Host.runtime) 0 carabaoForm))
    as [data|] eqn:E; [|discriminate E].
  exists data. split; [reflexivity|].
  rewrite (legal_headings_by_class Host.runtime 5 0 carabaoForm data E).
  vm_compute in E. injection E as <-. reflexivity.
Defined.

Lemma partyHtml_nameless (html : string) (p : PartyInfo) :
  name p = "" -> anyFilled p = true ->
  exists rest, rest <> "" /\
    partyHtml html p = (html +:+ "N/A") +:+ " – " +:+ rest.
Proof.
  intros Hn Hf. unfold anyFilled in Hf. unfold partyHtml, push.
  rewrite Hn in *. cbn [truthy orb] in *.
  destruct (truthy (phone p)), (truthy (email p)), (truthy (address p));
    try discriminate Hf; cbn [app length Nat.ltb Nat.leb String.concat];
    eexists; (split; [|reflexivity]); discriminate.
Qed.

(** X27. A respondent line of the report is never the bare [N/A]: the
    respondents come from [gatherData], which keeps only blocks with a value,
    so a respondent without a name has a phone, an email or an address, and
    its line is [N/A] followed by the dash and those contacts. *)
Theorem respondent_line_never_bare :
  forall (f : Form) (p : PartyInfo) (label : string),
    In p (respondents (gatherData f)) ->
    name p = "" ->
    exists rest, rest <> "" /\
      partyHtml label p = (label +:+ "N/A") +:+ " – " +:+ rest.
Proof.
  intros f p label Hin Hn. apply partyHtml_nameless; [exact Hn|].
  rewrite respondents_filter in Hin. now apply filter_In in Hin.
Qed.

Lemma respondent_line_never_bare_witness :
  exists rest, rest <> "" /\
    partyHtml "<strong>Respondent 1:</strong> "
      {| name := ""; phone := "0917 000 0000"; email := ""; address := "" |} =
    ("<strong>Respondent 1:</strong> " +:+ "N/A") +:+ " – " +:+ rest.
Proof.
  apply (respondent_line_never_bare
           (withRespondents carabaoForm
              [ {| respondent_index := "1"; remove_display := "none";
                   controls := {| name := " "; phone := " 0917 000 0000";
                                  email := ""; address := "" |} |} ])).
  - left. reflexivity.
  - reflexivity.
Defined.
